(** * GeoArchive: the W3ID URL notebook

    A shallow embedding of the notebook
    [notebooks/GeoArchive - Zotero - W3ID_URL.ipynb]: the two helper
    functions of its second code cell ([add_w3id_url], [process_batch]) and
    the script of its last two code cells, which pages through a Zotero
    group library and sends one [update_items] call per page.

    Python values are modelled by the fragment of JSON-like objects the
    notebook touches, dictionaries by [gmap string value], exceptions by a
    [result] type, and the pyzotero client by an interface ([Collaborator])
    whose calls are recorded in a trace. *)

From Stdlib Require Import Ascii.
From stdpp Require Import gmap strings list pretty.

Local Open Scope string_scope.

(** ** Python values *)

(** The objects a decoded Zotero response is made of.  Floats are left
    out: no code path of the notebook computes with one. *)
#[warnings="-register-all"]
Inductive value : Type :=
| VNone
| VBool (b : bool)
| VInt (n : Z)
| VStr (s : string)
| VList (l : list value)
| VDict (d : gmap string value).

(** The exceptions the helper functions can raise. *)
Inductive exn : Type :=
| KeyError (k : string)
| TypeError.

Inductive result (A : Type) : Type :=
| Ok (a : A)
| Raise (e : exn).

Arguments Ok {A} a.
Arguments Raise {A} e.

#[global] Instance result_ret : MRet result := λ A a, Ok a.
#[global] Instance result_bind : MBind result := λ A B f m,
  match m with
  | Ok a => f a
  | Raise e => Raise e
  end.

(** [obj[k]] for a string subscript [k]: a dictionary raises [KeyError] on
    a missing key, every other object of the fragment raises [TypeError]
    (a string or a list does not take a string index, the rest is not
    subscriptable). *)
Definition getitem (obj : value) (k : string) : result value :=
  match obj with
  | VDict d =>
      match d !! k with
      | Some v => Ok v
      | None => Raise (KeyError k)
      end
  | _ => Raise TypeError
  end.

(** ** The pyzotero client *)

(** One line of the run as an observer sees it: a call on the client with
    what it returned, or a line printed by the last cell. *)
Inductive event : Type :=
| CallItems (itemType : string) (limit : nat) (page : list value)
| CallNext (page : option (list value))
| CallUpdateItems (payload : list value) (success : bool)
| PrintBatch (label : string) (count : nat) (success : bool)
| PrintTotal (label : string) (count : nat).

(** The three calls the notebook makes on [z_ni43101].  The client is a
    mutable object shared by all of them, so every call threads its state
    [conn].  [iter_next] is one step of the generator [iterfollow()]:
    [None] stands for [StopIteration]. *)
Record Collaborator : Type := {
  conn : Type;
  items : string → nat → conn → list value * conn;
  iter_next : conn → option (list value) * conn;
  update_items : list value → conn → bool * conn;
}.

(** A client that answers from a script: [first_page] to [items], the
    [i]-th step of the iterator with [pages i], and the [j]-th call of
    [update_items] with [flags j], whatever the payload.  Its state counts
    the steps and the calls made so far. *)
Record script_state : Type := ScriptState {
  fetches : nat;
  submissions : nat;
}.

Definition scripted (first_page : list value)
    (pages : nat → option (list value)) (flags : nat → bool) : Collaborator := {|
  conn := script_state;
  items := λ _ _ s, (first_page, s);
  iter_next := λ s,
    (pages (fetches s),
     {| fetches := S (fetches s); submissions := submissions s |});
  update_items := λ _ s,
    (flags (submissions s),
     {| fetches := fetches s; submissions := S (submissions s) |});
|}.

(** The iterator of a client that has finitely many pages left. *)
Definition finite_pages (rest : list (list value)) : nat → option (list value) :=
  λ i, rest !! i.

Definition start : script_state := {| fetches := 0; submissions := 0 |}.

Section Notebook.

(** [str()] of a list or a dictionary, which a replacement field of an
    f-string falls back on.  It is part of the Python runtime, not of the
    notebook, and nothing below depends on what it prints. *)
Variable py_repr : value → string.

(** What a replacement field [{v}] of an f-string prints. *)
Definition format_value (v : value) : string :=
  match v with
  | VStr s => s
  | VInt n => pretty n
  | VBool true => "True"
  | VBool false => "False"
  | VNone => "None"
  | VList _ | VDict _ => py_repr v
  end.

(** ** Second code cell *)

Definition add_w3id_url (item : value) : result value :=
  library ← getitem item "library";
  library_id ← getitem library "id";
  item_key ← getitem item "key";
  let w3id_url :=
    "https://w3id.org/usgs/z/" +:+ format_value library_id +:+ "/"
      +:+ format_value item_key in
  version ← getitem item "version";
  let item_update : gmap string value :=
    {[ "key" := item_key; "version" := version; "url" := VStr w3id_url ]} in
  Ok (VDict item_update).

Definition process_batch (batch : list value) : result (list value) :=
  mapM add_w3id_url batch.

(** ** Last two code cells *)

Section Script.

Context (C : Collaborator).

(** The state of a run: the client and the lines observed so far. *)
Record world : Type := World {
  client : conn C;
  trace : list event;
}.

(** Statements of the script: they may raise, and they change the world. *)
Definition script (A : Type) : Type := world → result A * world.

#[global] Instance script_ret : MRet script := λ A a w, (Ok a, w).
#[global] Instance script_bind : MBind script := λ A B f m w,
  match m w with
  | (Ok a, w') => f a w'
  | (Raise e, w') => (Raise e, w')
  end.

Definition lift {A} (r : result A) : script A := λ w, (r, w).

Definition log (e : event) : script unit :=
  λ w, (Ok tt, {| client := client w; trace := trace w ++ [e] |}).

Definition call_items (itemType : string) (limit : nat) : script (list value) :=
  λ w, let '(page, c) := items C itemType limit (client w) in
       (Ok page, {| client := c; trace := trace w ++ [CallItems itemType limit page] |}).

Definition call_next : script (option (list value)) :=
  λ w, let '(page, c) := iter_next C (client w) in
       (Ok page, {| client := c; trace := trace w ++ [CallNext page] |}).

Definition call_update_items (payload : list value) : script bool :=
  λ w, let '(success, c) := update_items C payload (client w) in
       (Ok success, {| client := c; trace := trace w ++ [CallUpdateItems payload success] |}).

(** [report_items = z_ni43101.items(itemType="report", limit=50)]; creating
    the generator [iterfollow()] on the next line calls nothing. *)
Definition fetch_first : script (list value) :=
  call_items "report" 50.

Definition initial_batch (report_items : list value) : script nat :=
  let total_items := length report_items in
  initial_batch_updates ← lift (process_batch report_items);
  results_update ← call_update_items initial_batch_updates;
  _ ← log (PrintBatch "PROCESSED INITIAL BATCH" (length initial_batch_updates) results_update);
  mret total_items.

Definition loop_body (item_batch : list value) (total_items : nat) : script nat :=
  batch_updates ← lift (process_batch item_batch);
  results_update ← call_update_items batch_updates;
  _ ← log (PrintBatch "PROCESSED NEXT BATCH" (length batch_updates) results_update);
  mret (total_items + length item_batch).

(** [for item_batch in report_items_iterator: ...].  [fuel] bounds the
    number of steps the iterator may be asked for; [None] means the bound
    was reached with the loop still running. *)
Fixpoint for_loop (fuel : nat) (total_items : nat) (w : world)
    : option (result nat * world) :=
  match fuel with
  | 0 => None
  | S fuel' =>
      match call_next w with
      | (Ok None, w1) => Some (Ok total_items, w1)
      | (Ok (Some item_batch), w1) =>
          match loop_body item_batch total_items w1 with
          | (Ok total_items', w2) => for_loop fuel' total_items' w2
          | (Raise e, w2) => Some (Raise e, w2)
          end
      | (Raise e, w1) => Some (Raise e, w1)
      end
  end.

(** The whole run; its value is the total printed by the last line. *)
Definition notebook (fuel : nat) (w : world) : option (result nat * world) :=
  match (report_items ← fetch_first; initial_batch report_items) w with
  | (Ok total_items, w1) =>
      match for_loop fuel total_items w1 with
      | Some (Ok total_items', w2) =>
          Some ((_ ← log (PrintTotal "TOTAL ITEMS PROCESSED" total_items');
                 mret total_items') w2)
      | Some (Raise e, w2) => Some (Raise e, w2)
      | None => None
      end
  | (Raise e, w1) => Some (Raise e, w1)
  end.

End Script.

(** A run against a scripted client, from a fresh connection: what the
    script returns or raises, and the trace. *)
Definition run (first_page : list value) (pages : nat → option (list value))
    (flags : nat → bool) (fuel : nat) : option (result nat * list event) :=
  let C := scripted first_page pages flags in
  match notebook C fuel (World C start []) with
  | Some (r, w) => Some (r, trace C w)
  | None => None
  end.

(** ** Vocabulary of the statements *)

(** The update requests [process_batch] builds for a page it accepts. *)
Definition updates_of (page : list value) : list value :=
  match process_batch page with
  | Ok updates => updates
  | Raise _ => []
  end.

(** What sending the batch of one page adds to the trace: the call and
    the line printed after it. *)
Definition batch_trace (label : string) (page : list value) (success : bool)
    : list event :=
  [CallUpdateItems (updates_of page) success;
   PrintBatch label (length (updates_of page)) success].

(** The trace of the loop on an iterator that yields the pages [rest] and
    then stops, [j] calls of [update_items] having been made before. *)
Fixpoint loop_trace (rest : list (list value)) (flags : nat → bool) (j : nat)
    : list event :=
  match rest with
  | [] => [CallNext None]
  | page :: rest' =>
      CallNext (Some page)
        :: batch_trace "PROCESSED NEXT BATCH" page (flags j)
        ++ loop_trace rest' flags (S j)
  end.

(** The trace of the whole run on a client that serves [first_page], then
    the pages [rest], then [StopIteration]. *)
Definition run_trace (first_page : list value) (rest : list (list value))
    (flags : nat → bool) : list event :=
  CallItems "report" 50 first_page
    :: batch_trace "PROCESSED INITIAL BATCH" first_page (flags 0%nat)
    ++ loop_trace rest flags 1
    ++ [PrintTotal "TOTAL ITEMS PROCESSED"
          (sum_list (length <$> first_page :: rest))].

(** ** The script a client follows *)

(** The notebook is deterministic, so what a client answers in the course
    of one run is a script.  [script_pages] and [script_flags] read it off
    an arbitrary client [C] started in state [c0]. *)
Section ScriptOf.

Context (C : Collaborator) (c0 : conn C).

Definition first_answer : list value * conn C := items C "report" 50 c0.

Definition batch_answer (page : list value) (c : conn C) : bool * conn C :=
  update_items C (updates_of page) c.

(** The client as the [n]-th step of the iterator finds it. *)
Fixpoint before_step (n : nat) : conn C :=
  match n with
  | 0 => (batch_answer first_answer.1 first_answer.2).2
  | S n' =>
      match iter_next C (before_step n') with
      | (Some page, c) => (batch_answer page c).2
      | (None, c) => c
      end
  end.

Definition script_pages (n : nat) : option (list value) :=
  (iter_next C (before_step n)).1.

Definition script_flags (j : nat) : bool :=
  match j with
  | 0 => (batch_answer first_answer.1 first_answer.2).1
  | S n =>
      match iter_next C (before_step n) with
      | (Some page, c) => (batch_answer page c).1
      | (None, _) => true
      end
  end.

(** What is observed of a run on [C]. *)
Definition observed (r : option (result nat * world C))
    : option (result nat * list event) :=
  match r with
  | Some (x, w) => Some (x, trace C w)
  | None => None
  end.

End ScriptOf.

End Notebook.

(** [k in d]. *)
Definition present (d : gmap string value) (k : string) : bool :=
  match d !! k with
  | Some _ => true
  | None => false
  end.

(** An Item of the data model: a dictionary with a key, a version and a
    library that has an id. *)
Definition is_item (item : value) : bool :=
  match item with
  | VDict d =>
      match d !! "library" with
      | Some (VDict library) =>
          present library "id" && present d "key" && present d "version"
      | _ => false
      end
  | _ => false
  end.

Definition is_page (page : list value) : bool := forallb is_item page.

(** [pages], read from step [i] on, yields [rest] and then stops. *)
Definition serves (pages : nat → option (list value)) (i : nat)
    (rest : list (list value)) : Prop :=
  ∀ k : nat, (k ≤ length rest)%nat → pages (k + i)%nat = rest !! k.

(** Projections of a trace: the pages the client returned, the payloads of
    the [update_items] calls, their results, and the last line printed. *)
Definition fetched (tr : list event) : list (list value) :=
  omap (λ e, match e with
             | CallItems _ _ page => Some page
             | CallNext (Some page) => Some page
             | _ => None
             end) tr.

Definition submitted (tr : list event) : list (list value) :=
  omap (λ e, match e with
             | CallUpdateItems payload _ => Some payload
             | _ => None
             end) tr.

Definition successes (tr : list event) : list bool :=
  omap (λ e, match e with
             | CallUpdateItems _ success => Some success
             | _ => None
             end) tr.

Definition reported_total (tr : list event) : option nat :=
  match last tr with
  | Some (PrintTotal _ n) => Some n
  | _ => None
  end.

(** A trace with the results of [update_items] blanked, where they are
    returned and where they are printed. *)
Definition blank (e : event) : event :=
  match e with
  | CallUpdateItems payload _ => CallUpdateItems payload true
  | PrintBatch label count _ => PrintBatch label count true
  | _ => e
  end.

(** An update request that carries the key and the version of [item], the
    url derived from its library id and key, and nothing else. *)
Definition is_update_of (py_repr : value → string) (item update : value) : Prop :=
  ∃ (m : gmap string value) library library_id item_key version,
    update = VDict m ∧
    dom m = ({[ "key"; "version"; "url" ]} : gset string) ∧
    getitem item "key" = Ok item_key ∧ m !! "key" = Some item_key ∧
    getitem item "version" = Ok version ∧ m !! "version" = Some version ∧
    getitem item "library" = Ok library ∧
    getitem library "id" = Ok library_id ∧
    m !! "url" =
      Some (VStr ("https://w3id.org/usgs/z/"
                  +:+ format_value py_repr library_id +:+ "/"
                  +:+ format_value py_repr item_key)).

(** What two runs have in common when they may differ in the results of
    [update_items] only. *)
Definition blanked (r : option (result nat * list event))
    : option (result nat * list event) :=
  match r with
  | Some (x, tr) => Some (x, blank <$> tr)
  | None => None
  end.

(** The part of their worlds two runs against scripted clients must agree
    on, when the scripts differ in the results of [update_items] only. *)
Definition agree {first_page pages flags1 flags2}
    (w1 : world (scripted first_page pages flags1))
    (w2 : world (scripted first_page pages flags2)) : Prop :=
  client _ w1 = client _ w2 ∧ blank <$> trace _ w1 = blank <$> trace _ w2.

Definition agree_result {A first_page pages flags1 flags2}
    (r1 : result A * world (scripted first_page pages flags1))
    (r2 : result A * world (scripted first_page pages flags2)) : Prop :=
  r1.1 = r2.1 ∧ agree r1.2 r2.2.

(** ** Concrete inputs *)

(** A report of the group library 4530692, cut down to the fields that
    matter and a few that do not. *)
Definition example_item : value :=
  VDict {[ "key" := VStr "ABC123";
           "version" := VInt 7;
           "library" := VDict {[ "type" := VStr "group"; "id" := VStr "4530692" ]};
           "data" := VDict {[ "itemType" := VStr "report";
                              "url" := VStr "";
                              "tags" := VList [] ]} ]}.

(** An item whose library id and key are empty strings. *)
Definition empty_ids_item : value :=
  VDict {[ "key" := VStr "";
           "version" := VInt 0;
           "library" := VDict {[ "id" := VStr "" ]} ]}.

(** A stand-in for [py_repr] in closed statements. *)
Definition example_repr : value → string := λ _, "{...}".

(** ** Vocabulary of the further properties *)

(** No character of [s] is a slash. *)
Fixpoint slash_free (s : string) : bool :=
  match s with
  | EmptyString => true
  | String c s' => negb (Ascii.eqb c "/"%char) && slash_free s'
  end.

(** The size and the result of each [update_items] call of a trace, and
    the label, the count and the result of each progress line. *)
Definition calls (tr : list event) : list (nat * bool) :=
  omap (λ e, match e with
             | CallUpdateItems payload success => Some (length payload, success)
             | _ => None
             end) tr.

Definition lines (tr : list event) : list (string * (nat * bool)) :=
  omap (λ e, match e with
             | PrintBatch label count success => Some (label, (count, success))
             | _ => None
             end) tr.

(** A walk along a trace that checks that pages are fetched and sent in
    turn: [pending] tells whether a page has been fetched and not sent yet.
    A fetch with a page pending, or a call of [update_items] with none, is
    a violation ([None]); otherwise the result tells whether a page is
    pending at the end. *)
Fixpoint pending_after (pending : bool) (tr : list event) : option bool :=
  match tr with
  | [] => Some pending
  | CallItems _ _ _ :: tr' | CallNext (Some _) :: tr' =>
      if pending then None else pending_after true tr'
  | CallNext None :: tr' =>
      if pending then None else pending_after false tr'
  | CallUpdateItems _ _ :: tr' =>
      if pending then pending_after false tr' else None
  | _ :: tr' => pending_after pending tr'
  end.

(** The trace of the loop on an iterator that yields the pages [sent] and
    then the page [bad], on which [process_batch] raises. *)
Fixpoint loop_abort_trace (py_repr : value → string) (sent : list (list value))
    (bad : list value) (flags : nat → bool) (j : nat) : list event :=
  match sent with
  | [] => [CallNext (Some bad)]
  | page :: sent' =>
      CallNext (Some page)
        :: batch_trace py_repr "PROCESSED NEXT BATCH" page (flags j)
        ++ loop_abort_trace py_repr sent' bad flags (S j)
  end.

(** The events of the loop while it goes on: a page from the iterator, the
    call that sends it, the line that reports the call. *)
Definition in_loop (e : event) : bool :=
  match e with
  | CallNext (Some _) | CallUpdateItems _ _ | PrintBatch _ _ _ => true
  | _ => false
  end.

(** A client that keeps the pages it has still to give in a queue, and
    that reports success for the payloads that are not empty. *)
Definition queue_client : Collaborator := {|
  conn := list (list value);
  items := λ _ _ queue, (default [] (head queue), tail queue);
  iter_next := λ queue, (head queue, tail queue);
  update_items := λ payload queue, (negb (Nat.eqb (length payload) 0), queue);
|}.

(** The traces the loop can add, with the total it starts from and its
    outcome; and the traces of a whole run. *)
Inductive loop_shape (py_repr : value → string)
    : nat → list event → result nat → Prop :=
| loop_stops total :
    loop_shape py_repr total [CallNext None] (Ok total)
| loop_raises total page e :
    process_batch py_repr page = Raise e →
    loop_shape py_repr total [CallNext (Some page)] (Raise e)
| loop_goes_on total page updates success tr r :
    process_batch py_repr page = Ok updates →
    loop_shape py_repr (total + length page) tr r →
    loop_shape py_repr total
      (CallNext (Some page)
         :: CallUpdateItems updates success
         :: PrintBatch "PROCESSED NEXT BATCH" (length updates) success
         :: tr) r.

Inductive run_shape (py_repr : value → string)
    : list event → result nat → Prop :=
| run_raises_at_once page e :
    process_batch py_repr page = Raise e →
    run_shape py_repr [CallItems "report" 50 page] (Raise e)
| run_raises_later page updates success tr e :
    process_batch py_repr page = Ok updates →
    loop_shape py_repr (length page) tr (Raise e) →
    run_shape py_repr
      (CallItems "report" 50 page
         :: CallUpdateItems updates success
         :: PrintBatch "PROCESSED INITIAL BATCH" (length updates) success
         :: tr) (Raise e)
| run_ends page updates success tr total :
    process_batch py_repr page = Ok updates →
    loop_shape py_repr (length page) tr (Ok total) →
    run_shape py_repr
      (CallItems "report" 50 page
         :: CallUpdateItems updates success
         :: PrintBatch "PROCESSED INITIAL BATCH" (length updates) success
         :: tr ++ [PrintTotal "TOTAL ITEMS PROCESSED" total]) (Ok total).

(** * Properties *)

(** ** The helper functions *)

Section Helpers.

Variable py_repr : value → string.

Lemma getitem_Ok (obj : value) (k : string) (v : value) :
  getitem obj k = Ok v ↔ ∃ d, obj = VDict d ∧ d !! k = Some v.
Proof.
  split.
  - destruct obj as [| | | | |d]; simpl; try discriminate.
    destruct (d !! k) as [x|] eqn:E; [|discriminate].
    intros [= ->]. by exists d.
  - intros (d & -> & E). simpl. by rewrite E.
Qed.

(** [add_w3id_url] in closed form, when the four subscripts succeed. *)
Lemma add_w3id_url_fields (item library library_id item_key version : value) :
  getitem item "library" = Ok library →
  getitem library "id" = Ok library_id →
  getitem item "key" = Ok item_key →
  getitem item "version" = Ok version →
  add_w3id_url py_repr item =
    Ok (VDict {[ "key" := item_key; "version" := version;
                 "url" := VStr ("https://w3id.org/usgs/z/"
                                +:+ format_value py_repr library_id +:+ "/"
                                +:+ format_value py_repr item_key) ]}).
Proof.
  intros H1 H2 H3 H4. unfold add_w3id_url.
  rewrite H1. simpl. rewrite H2. simpl. rewrite H3. simpl. rewrite H4. done.
Qed.

(** Conversely, a result of [add_w3id_url] comes from four subscripts that
    succeeded. *)
Lemma add_w3id_url_inv (item update : value) :
  add_w3id_url py_repr item = Ok update →
  ∃ library library_id item_key version,
    getitem item "library" = Ok library ∧
    getitem library "id" = Ok library_id ∧
    getitem item "key" = Ok item_key ∧
    getitem item "version" = Ok version.
Proof.
  unfold add_w3id_url.
  destruct (getitem item "library") as [library|] eqn:H1; [|discriminate]. simpl.
  destruct (getitem library "id") as [library_id|] eqn:H2; [|discriminate]. simpl.
  destruct (getitem item "key") as [item_key|] eqn:H3; [|discriminate]. simpl.
  destruct (getitem item "version") as [version|] eqn:H4; [|discriminate]. simpl.
  intros _. by exists library, library_id, item_key, version.
Qed.

Lemma present_true (d : gmap string value) (k : string) :
  present d k = true → ∃ v, getitem (VDict d) k = Ok v.
Proof.
  unfold present. simpl. destruct (d !! k) as [v|]; [|discriminate].
  intros _. by exists v.
Qed.

Lemma is_item_Ok (item : value) :
  is_item item = true → ∃ update, add_w3id_url py_repr item = Ok update.
Proof.
  destruct item as [| | | | |d]; simpl; try discriminate.
  destruct (d !! "library") as [[| | | | |library]|] eqn:E; try discriminate.
  rewrite !andb_true_iff. intros [[H1 H2] H3].
  apply present_true in H1 as [library_id H1].
  apply present_true in H2 as [item_key H2].
  apply present_true in H3 as [version H3].
  eexists. apply (add_w3id_url_fields _ (VDict library) library_id item_key version);
    [simpl; by rewrite E|done..].
Qed.

Lemma process_batch_cons (item : value) (batch : list value) :
  process_batch py_repr (item :: batch) =
    (update ← add_w3id_url py_repr item;
     updates ← process_batch py_repr batch;
     mret (update :: updates)).
Proof. reflexivity. Qed.

(** The list comprehension succeeds exactly when every item does, and then
    it is the pointwise image of the batch. *)
Lemma process_batch_Ok (batch updates : list value) :
  process_batch py_repr batch = Ok updates ↔
  Forall2 (λ item update, add_w3id_url py_repr item = Ok update) batch updates.
Proof.
  revert updates. induction batch as [|item batch IH]; intros updates.
  - split.
    + intros [= <-]. constructor.
    + intros H. by inversion H.
  - rewrite process_batch_cons. split.
    + destruct (add_w3id_url py_repr item) as [update|] eqn:E1; [|discriminate].
      simpl. destruct (process_batch py_repr batch) as [us|] eqn:E2; [|discriminate].
      simpl. intros [= <-]. constructor; [done|]. by apply IH.
    + intros H. inversion H as [|? update ? us H1 H2]; subst.
      rewrite H1. simpl. apply IH in H2. rewrite H2. done.
Qed.

Lemma is_page_Ok (page : list value) :
  is_page page = true → process_batch py_repr page = Ok (updates_of py_repr page).
Proof.
  intros H. unfold updates_of.
  enough (∃ us, process_batch py_repr page = Ok us) as [us ->] by done.
  induction page as [|item page IH]; [by exists []|].
  simpl in H. apply andb_true_iff in H as [H1 H2].
  destruct (is_item_Ok _ H1) as [u Hu]. destruct (IH H2) as [us Hus].
  exists (u :: us). rewrite process_batch_cons, Hu. simpl. rewrite Hus. done.
Qed.

Lemma updates_of_pointwise (page : list value) :
  is_page page = true →
  Forall2 (λ item update, add_w3id_url py_repr item = Ok update)
    page (updates_of py_repr page).
Proof. intros H. apply process_batch_Ok. by apply is_page_Ok. Qed.

Lemma updates_of_length (page : list value) :
  is_page page = true → length (updates_of py_repr page) = length page.
Proof.
  intros H. symmetry. eapply Forall2_length. by apply updates_of_pointwise.
Qed.

Lemma add_w3id_url_is_update (item update : value) :
  add_w3id_url py_repr item = Ok update → is_update_of py_repr item update.
Proof.
  intros H.
  destruct (add_w3id_url_inv _ _ H)
    as (library & library_id & item_key & version & H1 & H2 & H3 & H4).
  rewrite (add_w3id_url_fields _ _ _ _ _ H1 H2 H3 H4) in H.
  injection H as <-.
  eexists _, library, library_id, item_key, version.
  split; [reflexivity|].
  split; [rewrite !dom_insert_L, dom_singleton_L; set_solver|].
  repeat split; try done.
Qed.

End Helpers.

(** ** Runs against a scripted client *)

Section Runs.

Variable py_repr : value → string.
Variable first_page : list value.
Variable pages : nat → option (list value).
Variable flags : nat → bool.

Let C : Collaborator := scripted first_page pages flags.

Lemma initial_batch_scripted (i j : nat) (tr : list event) :
  is_page first_page = true →
  initial_batch py_repr C first_page (World C (ScriptState i j) tr) =
  (Ok (length first_page),
   World C (ScriptState i (S j))
     (tr ++ batch_trace py_repr "PROCESSED INITIAL BATCH" first_page (flags j))).
Proof.
  intros Hp. unfold initial_batch, mbind, script_bind, lift.
  rewrite (is_page_Ok py_repr first_page Hp). simpl.
  by rewrite <- app_assoc.
Qed.

Lemma loop_body_scripted (page : list value) (total i j : nat) (tr : list event) :
  is_page page = true →
  loop_body py_repr C page total (World C (ScriptState i j) tr) =
  (Ok (total + length page)%nat,
   World C (ScriptState i (S j))
     (tr ++ batch_trace py_repr "PROCESSED NEXT BATCH" page (flags j))).
Proof.
  intros Hp. unfold loop_body, mbind, script_bind, lift.
  rewrite (is_page_Ok py_repr page Hp). simpl.
  by rewrite <- app_assoc.
Qed.

(** The loop on a client with finitely many pages left: it asks for each,
    sends one payload per page, and stops at [StopIteration]. *)
Lemma for_loop_serves (rest : list (list value)) :
  ∀ (i j total : nat) (tr : list event) (fuel : nat),
    serves pages i rest →
    forallb is_page rest = true →
    (length rest < fuel)%nat →
    for_loop py_repr C fuel total (World C (ScriptState i j) tr) =
    Some (Ok (total + sum_list (length <$> rest))%nat,
          World C (ScriptState (S (length rest) + i) (length rest + j))
            (tr ++ loop_trace py_repr rest flags j)).
Proof.
  induction rest as [|page rest IH]; intros i j total tr fuel Hs Hok Hfuel.
  - destruct fuel as [|fuel]; [simpl in Hfuel; lia|].
    pose proof (Hs 0%nat (Nat.le_0_l _)) as H0. simpl in H0.
    simpl. unfold call_next. simpl. rewrite H0.
    by rewrite Nat.add_0_r.
  - destruct fuel as [|fuel]; [simpl in Hfuel; lia|].
    simpl in Hok. apply andb_true_iff in Hok as [Hp Hok].
    pose proof (Hs 0%nat (Nat.le_0_l _)) as H0. simpl in H0.
    simpl. unfold call_next. simpl. rewrite H0.
    rewrite (loop_body_scripted _ _ _ _ _ Hp).
    rewrite (IH (S i) (S j)).
    + f_equal. f_equal.
      * f_equal. by rewrite <- Nat.add_assoc.
      * f_equal; [f_equal; lia|]. by rewrite <- !app_assoc.
    + intros k Hk. specialize (Hs (S k)). simpl in Hs.
      rewrite Nat.add_succ_r. apply Hs. lia.
    + done.
    + simpl in Hfuel. lia.
Qed.

(** The whole run on a client with finitely many pages. *)
Lemma run_serves (rest : list (list value)) (fuel : nat) :
  is_page first_page = true →
  serves pages 0 rest →
  forallb is_page rest = true →
  (length rest < fuel)%nat →
  run py_repr first_page pages flags fuel =
  Some (Ok (sum_list (length <$> first_page :: rest)),
        run_trace py_repr first_page rest flags).
Proof.
  intros Hp Hs Hok Hfuel. unfold run, notebook.
  unfold mbind at 1. unfold script_bind at 1. unfold fetch_first, call_items.
  cbn -[initial_batch for_loop]. unfold start.
  rewrite (initial_batch_scripted 0 0 _ Hp).
  rewrite (for_loop_serves rest _ _ _ _ _ Hs Hok Hfuel).
  simpl. unfold run_trace. simpl. reflexivity.
Qed.

(** An iterator that stops at some step serves a finite list of pages. *)
Lemma exhausted_serves (n : nat) :
  ∀ i : nat, pages (n + i)%nat = None →
    ∃ rest, (length rest ≤ n)%nat ∧ serves pages i rest.
Proof.
  induction n as [|n IH]; intros i Hn.
  - exists []. split; [done|]. intros k Hk. simpl in Hk.
    assert (k = 0)%nat as -> by lia. done.
  - destruct (pages i) as [page|] eqn:Hi.
    + destruct (IH (S i)) as (rest & Hlen & Hs).
      { by rewrite Nat.add_succ_r. }
      exists (page :: rest). split; [simpl; lia|].
      intros [|k] Hk; [done|]. simpl.
      rewrite <- Nat.add_succ_r. apply Hs. simpl in Hk. lia.
    + exists []. split; [simpl; lia|]. intros k Hk. simpl in Hk.
      assert (k = 0)%nat as -> by lia. done.
Qed.

Lemma serves_is_page (i : nat) (rest : list (list value)) :
  (∀ k page, pages k = Some page → is_page page = true) →
  serves pages i rest → forallb is_page rest = true.
Proof.
  intros Hall Hs. apply forallb_forall. intros page Hin.
  apply list_elem_of_In, list_elem_of_lookup in Hin as [k Hk].
  apply (Hall (k + i)%nat). rewrite Hs; [done|].
  apply lookup_lt_Some in Hk. lia.
Qed.

(** A loop that returns has met [StopIteration], unless an item was
    malformed. *)
Lemma for_loop_Some (fuel : nat) :
  ∀ (i j total : nat) (tr : list event) r,
    (∀ k page, pages k = Some page → is_page page = true) →
    for_loop py_repr C fuel total (World C (ScriptState i j) tr) = Some r →
    ∃ n, pages n = None.
Proof.
  induction fuel as [|fuel IH]; intros i j total tr r Hall; [discriminate|].
  simpl. unfold call_next. simpl.
  destruct (pages i) as [page|] eqn:Hi; [|by exists i].
  rewrite (loop_body_scripted _ _ _ _ _ (Hall _ _ Hi)).
  apply IH, Hall.
Qed.

Lemma run_Some_exhausted (fuel : nat) r :
  is_page first_page = true →
  (∀ k page, pages k = Some page → is_page page = true) →
  run py_repr first_page pages flags fuel = Some r →
  ∃ n, pages n = None.
Proof.
  intros Hp Hall Hrun. unfold run, notebook in Hrun.
  unfold mbind at 1 in Hrun. unfold script_bind at 1 in Hrun.
  unfold fetch_first, call_items in Hrun.
  cbn -[initial_batch for_loop] in Hrun. unfold start in Hrun.
  rewrite (initial_batch_scripted 0 0 _ Hp) in Hrun.
  destruct (for_loop _ _ fuel _ _) as [r'|] eqn:Hloop; [|by destruct r].
  by apply (for_loop_Some _ _ _ _ _ _ Hall Hloop).
Qed.

End Runs.

Lemma finite_pages_serves (rest : list (list value)) :
  serves (finite_pages rest) 0 rest.
Proof. intros k _. unfold finite_pages. by rewrite Nat.add_0_r. Qed.

(** ** Reading the trace of a finite run *)

Section Traces.

Variable py_repr : value → string.

Lemma fetched_loop_trace (rest : list (list value)) (flags : nat → bool) (j : nat) :
  fetched (loop_trace py_repr rest flags j) = rest.
Proof.
  revert j. induction rest as [|page rest IH]; intros j; [done|].
  simpl. f_equal. apply IH.
Qed.

Lemma submitted_loop_trace (rest : list (list value)) (flags : nat → bool) (j : nat) :
  submitted (loop_trace py_repr rest flags j) = updates_of py_repr <$> rest.
Proof.
  revert j. induction rest as [|page rest IH]; intros j; [done|].
  simpl. f_equal. apply IH.
Qed.

Lemma successes_loop_trace (rest : list (list value)) (flags : nat → bool) (j : nat) :
  successes (loop_trace py_repr rest flags j) = flags <$> seq j (length rest).
Proof.
  revert j. induction rest as [|page rest IH]; intros j; [done|].
  simpl. f_equal. apply IH.
Qed.

Lemma fetched_run_trace (first_page : list value) (rest : list (list value))
    (flags : nat → bool) :
  fetched (run_trace py_repr first_page rest flags) = first_page :: rest.
Proof.
  unfold run_trace, fetched. simpl. f_equal. rewrite omap_app. simpl.
  rewrite app_nil_r. apply fetched_loop_trace.
Qed.

Lemma submitted_run_trace (first_page : list value) (rest : list (list value))
    (flags : nat → bool) :
  submitted (run_trace py_repr first_page rest flags) =
    updates_of py_repr <$> first_page :: rest.
Proof.
  unfold run_trace, submitted. simpl. f_equal. rewrite omap_app. simpl.
  rewrite app_nil_r. apply submitted_loop_trace.
Qed.

Lemma successes_run_trace (first_page : list value) (rest : list (list value))
    (flags : nat → bool) :
  successes (run_trace py_repr first_page rest flags) =
    flags <$> seq 0 (S (length rest)).
Proof.
  unfold run_trace, successes. simpl. f_equal. rewrite omap_app. simpl.
  rewrite app_nil_r. apply successes_loop_trace.
Qed.

Lemma reported_total_run_trace (first_page : list value)
    (rest : list (list value)) (flags : nat → bool) :
  reported_total (run_trace py_repr first_page rest flags) =
    Some (sum_list (length <$> first_page :: rest)).
Proof.
  unfold run_trace, reported_total.
  rewrite app_comm_cons, app_assoc, last_snoc. done.
Qed.

End Traces.

Lemma fetched_blank (tr : list event) : fetched (blank <$> tr) = fetched tr.
Proof.
  unfold fetched. induction tr as [|e tr IH]; [done|].
  rewrite fmap_cons. destruct e as [?? page|[page|]|??|???|??]; simpl in *;
    try exact IH; f_equal; exact IH.
Qed.

Lemma submitted_blank (tr : list event) : submitted (blank <$> tr) = submitted tr.
Proof.
  unfold submitted. induction tr as [|e tr IH]; [done|].
  rewrite fmap_cons. destruct e as [?? page|[page|]|??|???|??]; simpl in *;
    try exact IH; f_equal; exact IH.
Qed.

Lemma reported_total_blank (tr : list event) :
  reported_total (blank <$> tr) = reported_total tr.
Proof.
  unfold reported_total. rewrite fmap_last.
  by destruct (last tr) as [[| | | |]|].
Qed.

(** ** Two runs that differ in the results of [update_items] *)

Section TwoRuns.

Variable py_repr : value → string.
Variable first_page : list value.
Variable pages : nat → option (list value).
Variables flags1 flags2 : nat → bool.

Let C1 : Collaborator := scripted first_page pages flags1.
Let C2 : Collaborator := scripted first_page pages flags2.

Lemma initial_batch_agree (w1 : world C1) (w2 : world C2) :
  agree w1 w2 →
  agree_result (initial_batch py_repr C1 first_page w1)
               (initial_batch py_repr C2 first_page w2).
Proof.
  destruct w1 as [c1 tr1], w2 as [c2 tr2]. intros [Hc Htr]. simpl in Hc, Htr.
  subst c2. unfold initial_batch, mbind, script_bind, lift.
  destruct (process_batch py_repr first_page) as [updates|e]; simpl.
  - split; [done|]. split; [done|]. simpl.
    rewrite !fmap_app. simpl. by rewrite Htr.
  - by split.
Qed.

Lemma loop_body_agree (page : list value) (total : nat)
    (w1 : world C1) (w2 : world C2) :
  agree w1 w2 →
  agree_result (loop_body py_repr C1 page total w1)
               (loop_body py_repr C2 page total w2).
Proof.
  destruct w1 as [c1 tr1], w2 as [c2 tr2]. intros [Hc Htr]. simpl in Hc, Htr.
  subst c2. unfold loop_body, mbind, script_bind, lift.
  destruct (process_batch py_repr page) as [updates|e]; simpl.
  - split; [done|]. split; [done|]. simpl.
    rewrite !fmap_app. simpl. by rewrite Htr.
  - by split.
Qed.

Lemma for_loop_agree (fuel : nat) :
  ∀ (total : nat) (w1 : world C1) (w2 : world C2),
    agree w1 w2 →
    match for_loop py_repr C1 fuel total w1, for_loop py_repr C2 fuel total w2 with
    | Some r1, Some r2 => agree_result r1 r2
    | None, None => True
    | _, _ => False
    end.
Proof.
  induction fuel as [|fuel IH]; intros total w1 w2 Hw; [done|].
  destruct w1 as [c1 tr1], w2 as [c2 tr2]. destruct Hw as [Hc Htr].
  simpl in Hc, Htr. subst c2.
  simpl. unfold call_next. simpl.
  destruct (pages (fetches c1)) as [page|] eqn:Hi.
  - pose proof (loop_body_agree page total
        (World C1 (ScriptState (S (fetches c1)) (submissions c1))
           (tr1 ++ [CallNext (Some page)]))
        (World C2 (ScriptState (S (fetches c1)) (submissions c1))
           (tr2 ++ [CallNext (Some page)]))) as Hb.
    lapply Hb.
    2:{ split; [done|]. simpl. rewrite !fmap_app. by rewrite Htr. }
    clear Hb. intros Hb. fold C1 C2.
    destruct (loop_body py_repr C1 page total _) as [[t1|e1] w1'],
             (loop_body py_repr C2 page total _) as [[t2|e2] w2'];
      destruct Hb as [Hr Ha]; simpl in Hr, Ha; try discriminate.
    + injection Hr as ->. by apply IH.
    + by split.
  - split; [done|]. split; [done|]. simpl.
    rewrite !fmap_app. by rewrite Htr.
Qed.

Lemma run_agree (fuel : nat) :
  blanked (run py_repr first_page pages flags1 fuel) =
  blanked (run py_repr first_page pages flags2 fuel).
Proof.
  unfold run, notebook.
  unfold mbind at 1 3. unfold script_bind at 1 3. unfold fetch_first, call_items.
  cbn -[initial_batch for_loop].
  pose proof (initial_batch_agree
                (World C1 start [CallItems "report" 50 first_page])
                (World C2 start [CallItems "report" 50 first_page])) as Hb.
  lapply Hb; [clear Hb; intros Hb|by split].
  fold C1 C2.
  destruct (initial_batch py_repr C1 first_page _) as [[t1|e1] w1],
           (initial_batch py_repr C2 first_page _) as [[t2|e2] w2];
    destruct Hb as [Hr Ha]; simpl in Hr, Ha; try discriminate.
  - injection Hr as ->.
    pose proof (for_loop_agree fuel t2 w1 w2 Ha) as Hl.
    destruct (for_loop py_repr C1 fuel t2 w1) as [[[t1'|e1'] w1']|],
             (for_loop py_repr C2 fuel t2 w2) as [[[t2'|e2'] w2']|];
      try done; destruct Hl as [Hr [Hc Htr]]; simpl in Hr, Hc, Htr;
      try discriminate.
    + injection Hr as ->. destruct w1' as [c1 tr1], w2' as [c2 tr2].
      simpl in *. rewrite !fmap_app. by rewrite Htr.
    + destruct w1' as [c1 tr1], w2' as [c2 tr2]. simpl in *. by rewrite Hr, Htr.
  - destruct Ha as [Hc Htr]. destruct w1 as [c1 tr1], w2 as [c2 tr2].
    simpl in *. by rewrite Hr, Htr.
Qed.

End TwoRuns.

Lemma forallb_is_page_Forall (l : list (list value)) :
  forallb is_page l = true → Forall (λ page, is_page page = true) l.
Proof.
  induction l as [|page l IH]; simpl; [constructor|].
  rewrite andb_true_iff. intros [H1 H2]. constructor; auto.
Qed.

(** ** Any client against its script *)

Section AnyClient.

Variable py_repr : value → string.
Context (C : Collaborator) (c0 : conn C).

Let S0 : Collaborator :=
  scripted (first_answer C c0).1 (script_pages py_repr C c0)
    (script_flags py_repr C c0).

Lemma process_batch_updates_of (page updates : list value) :
  process_batch py_repr page = Ok updates → updates_of py_repr page = updates.
Proof. unfold updates_of. by intros ->. Qed.

Lemma for_loop_script (fuel : nat) :
  ∀ (n total : nat) (tr : list event),
    observed C (for_loop py_repr C fuel total
                  (World C (before_step py_repr C c0 n) tr)) =
    observed S0 (for_loop py_repr S0 fuel total
                   (World S0 (ScriptState n (S n)) tr)).
Proof.
  induction fuel as [|fuel IH]; intros n total tr; [done|].
  simpl. unfold call_next. simpl. unfold script_pages.
  destruct (iter_next C (before_step py_repr C c0 n)) as [[page|] c] eqn:Hn;
    simpl; [|done].
  unfold loop_body, mbind, script_bind, lift, call_update_items, log.
  destruct (process_batch py_repr page) as [updates|e] eqn:Hpb; simpl; [|done].
  specialize (IH (S n) (total + length page)%nat
                ((tr ++ [CallNext (Some page)]) ++
                 [CallUpdateItems updates (script_flags py_repr C c0 (S n))] ++
                 [PrintBatch "PROCESSED NEXT BATCH" (length updates)
                    (script_flags py_repr C c0 (S n))])%list).
  simpl in IH. rewrite Hn in IH. unfold batch_answer in IH.
  rewrite (process_batch_updates_of _ _ Hpb) in IH.
  rewrite Hn. unfold batch_answer.
  rewrite (process_batch_updates_of _ _ Hpb).
  destruct (update_items C updates c) as [success c'] eqn:Hu. simpl in *.
  rewrite <- !app_assoc in *. exact IH.
Qed.

(** A run on any client is the run on the scripted client that gives the
    same answers. *)
Lemma run_script_of (fuel : nat) :
  observed C (notebook py_repr C fuel (World C c0 [])) =
  run py_repr (first_answer C c0).1 (script_pages py_repr C c0)
    (script_flags py_repr C c0) fuel.
Proof.
  unfold run, notebook. fold S0.
  unfold fetch_first, call_items, initial_batch, call_update_items, log, lift.
  unfold mbind, script_bind, mret, script_ret.
  pose proof (for_loop_script fuel 0) as Hloop.
  simpl in *. unfold first_answer, batch_answer in *.
  destruct (items C "report" 50 c0) as [page0 c1] eqn:H0. simpl in *.
  destruct (process_batch py_repr page0) as [updates|e] eqn:Hpb; simpl; [|done].
  rewrite (process_batch_updates_of _ _ Hpb) in *.
  destruct (update_items C updates c1) as [success c2] eqn:Hu. simpl in *.
  specialize (Hloop (length page0)
                [CallItems "report" 50 page0; CallUpdateItems updates success;
                 PrintBatch "PROCESSED INITIAL BATCH" (length updates) success]).
  destruct (for_loop py_repr C fuel (length page0) _) as [[[t|e] w]|],
           (for_loop py_repr S0 fuel (length page0) _) as [[[t'|e'] w']|];
    simpl in Hloop; try discriminate; try done.
  injection Hloop as -> ->. done.
Qed.

End AnyClient.

(** The run on a client with the pages [first_page :: rest], in full. *)
Lemma run_finite (py_repr : value → string) (first_page : list value)
    (rest : list (list value)) (flags : nat → bool) (fuel : nat) :
  forallb is_page (first_page :: rest) = true →
  (length rest < fuel)%nat →
  run py_repr first_page (finite_pages rest) flags fuel =
    Some (Ok (sum_list (length <$> first_page :: rest)),
          run_trace py_repr first_page rest flags).
Proof.
  intros Hok Hfuel. simpl in Hok. apply andb_true_iff in Hok as [Hp Hok].
  apply run_serves; auto using finite_pages_serves.
Qed.

(** ** The helper functions on concrete items *)

(** The Zotero API gives the library id as a number; the url is the same. *)
Example add_w3id_url_numeric_library_id :
  (update ← add_w3id_url example_repr
              (VDict {[ "key" := VStr "ABC123"; "version" := VInt 7;
                        "library" := VDict {[ "id" := VInt 4530692 ]} ]});
   getitem update "url") =
  Ok (VStr "https://w3id.org/usgs/z/4530692/ABC123").
Proof. reflexivity. Qed.

Example add_w3id_url_without_key :
  add_w3id_url example_repr
    (VDict {[ "version" := VInt 7;
              "library" := VDict {[ "id" := VStr "4530692" ]} ]}) =
  Raise (KeyError "key").
Proof. reflexivity. Qed.

Example add_w3id_url_not_a_dictionary :
  add_w3id_url example_repr (VStr "ABC123") = Raise TypeError.
Proof. reflexivity. Qed.

(** A malformed item stops the run at the page that holds it: the pages
    before it were sent, the rest is not fetched. *)
Example run_with_malformed_item :
  run example_repr [example_item]
    (finite_pages [[VDict ∅]; [example_item]]) (λ _, true) 3 =
  Some (Raise (KeyError "library"),
        [CallItems "report" 50 [example_item];
         CallUpdateItems (updates_of example_repr [example_item]) true;
         PrintBatch "PROCESSED INITIAL BATCH" 1 true;
         CallNext (Some [VDict ∅])]).
Proof. reflexivity. Qed.

(** On an iterator that never stops the run never returns. *)
Lemma endless_iterator_never_returns (py_repr : value → string)
    (first_page : list value) (pages : nat → option (list value))
    (flags : nat → bool) (fuel : nat) :
  is_page first_page = true →
  (∀ k, ∃ page, pages k = Some page ∧ is_page page = true) →
  run py_repr first_page pages flags fuel = None.
Proof.
  intros Hp Hall.
  destruct (run py_repr first_page pages flags fuel) as [r|] eqn:Hrun; [|done].
  assert (∀ k page, pages k = Some page → is_page page = true) as Hall'.
  { intros k page Hk. destruct (Hall k) as (page' & Hk' & Hok). congruence. }
  destruct (run_Some_exhausted py_repr _ _ _ _ _ Hp Hall' Hrun) as [n Hn].
  destruct (Hall n) as (page & Hk & _). congruence.
Qed.

(** * The claims *)

(** C1.  On a client that returns the page [first_page] to [items] and
    then the finitely many pages [rest] from the iterator, the run ends
    normally, the pages it was given are exactly these, and the total it
    returns and prints is the sum of their lengths: every item is counted
    once. *)
Theorem total_is_sum_of_page_sizes (py_repr : value → string)
    (first_page : list value) (rest : list (list value))
    (flags : nat → bool) (fuel : nat) :
  forallb is_page (first_page :: rest) = true →
  (length rest < fuel)%nat →
  ∃ tr,
    run py_repr first_page (finite_pages rest) flags fuel =
      Some (Ok (sum_list (length <$> first_page :: rest)), tr) ∧
    fetched tr = first_page :: rest ∧
    reported_total tr = Some (sum_list (length <$> first_page :: rest)).
Proof.
  intros Hok Hfuel. eexists. split; [by apply run_finite|].
  split; [apply fetched_run_trace|apply reported_total_run_trace].
Qed.

Lemma total_is_sum_of_page_sizes_witness :
  ∃ tr,
    run example_repr [example_item; empty_ids_item]
      (finite_pages [[example_item]; []; [empty_ids_item; example_item]])
      (λ _, true) 4 = Some (Ok 5, tr) ∧
    fetched tr =
      [[example_item; empty_ids_item]; [example_item]; [];
       [empty_ids_item; example_item]] ∧
    reported_total tr = Some 5.
Proof.
  apply (total_is_sum_of_page_sizes example_repr
           [example_item; empty_ids_item]
           [[example_item]; []; [empty_ids_item; example_item]]
           (λ _, true) 4); [reflexivity|simpl; lia].
Defined.

(** C2.  Three pages of 50, 50 and 12 items: three [update_items] calls,
    with 50, 50 and 12 update requests in that order, and a total of 112. *)
Theorem three_pages_50_50_12 (py_repr : value → string)
    (page1 page2 page3 : list value) (flags : nat → bool) (fuel : nat) :
  length page1 = 50 → length page2 = 50 → length page3 = 12 →
  forallb is_page [page1; page2; page3] = true →
  (2 < fuel)%nat →
  ∃ tr,
    run py_repr page1 (finite_pages [page2; page3]) flags fuel =
      Some (Ok 112, tr) ∧
    length <$> submitted tr = [50; 50; 12] ∧
    reported_total tr = Some 112.
Proof.
  intros H1 H2 H3 Hok Hfuel.
  pose proof (forallb_is_page_Forall _ Hok) as Hall.
  apply Forall_cons in Hall as [Hp1 Hall].
  apply Forall_cons in Hall as [Hp2 Hall].
  apply Forall_cons in Hall as [Hp3 _].
  exists (run_trace py_repr page1 [page2; page3] flags). split; [|split].
  - rewrite run_finite by done. simpl. by rewrite H1, H2, H3.
  - rewrite submitted_run_trace. simpl.
    rewrite !updates_of_length by done. by rewrite H1, H2, H3.
  - rewrite reported_total_run_trace. simpl. by rewrite H1, H2, H3.
Qed.

Lemma three_pages_50_50_12_witness :
  ∃ tr,
    run example_repr (replicate 50 example_item)
      (finite_pages [replicate 50 empty_ids_item; replicate 12 example_item])
      (λ j, negb (Nat.eqb j 1)) 3 = Some (Ok 112, tr) ∧
    length <$> submitted tr = [50; 50; 12] ∧
    reported_total tr = Some 112.
Proof.
  apply (three_pages_50_50_12 example_repr (replicate 50 example_item)
           (replicate 50 empty_ids_item) (replicate 12 example_item)
           (λ j, negb (Nat.eqb j 1)) 3);
    [reflexivity|reflexivity|reflexivity|vm_compute; reflexivity|lia].
Defined.

(** C3.  For an item whose library id is the string [L] and whose key is
    the string [K], [add_w3id_url] returns an update whose url is
    ["https://w3id.org/usgs/z/" + L + "/" + K].  The function takes the item
    and nothing else, so the url is a function of [L] and [K] alone. *)
Theorem w3id_url_of_library_and_key (py_repr : value → string)
    (item library version : value) (L K : string) :
  getitem item "library" = Ok library →
  getitem library "id" = Ok (VStr L) →
  getitem item "key" = Ok (VStr K) →
  getitem item "version" = Ok version →
  ∃ update,
    add_w3id_url py_repr item = Ok update ∧
    getitem update "url" = Ok (VStr ("https://w3id.org/usgs/z/" +:+ L +:+ "/" +:+ K)).
Proof.
  intros H1 H2 H3 H4. eexists. split.
  - apply (add_w3id_url_fields _ _ _ _ _ _ H1 H2 H3 H4).
  - reflexivity.
Qed.

Lemma w3id_url_of_library_and_key_witness :
  ∃ update,
    add_w3id_url example_repr example_item = Ok update ∧
    getitem update "url" = Ok (VStr "https://w3id.org/usgs/z/4530692/ABC123").
Proof.
  apply (w3id_url_of_library_and_key example_repr example_item
           (VDict {[ "type" := VStr "group"; "id" := VStr "4530692" ]})
           (VInt 7) "4530692" "ABC123"); reflexivity.
Defined.

(** C4, as the notebook behaves.  When [items] returns no item and the
    iterator stops at once, the first batch is still sent: there is exactly
    one [update_items] call, with an empty payload, and the total is 0. *)
Theorem empty_library_one_empty_submission (py_repr : value → string)
    (pages : nat → option (list value)) (flags : nat → bool) (fuel : nat) :
  pages 0%nat = None →
  (0 < fuel)%nat →
  run py_repr [] pages flags fuel =
    Some (Ok 0%nat,
          [CallItems "report" 50 [];
           CallUpdateItems [] (flags 0%nat);
           PrintBatch "PROCESSED INITIAL BATCH" 0 (flags 0%nat);
           CallNext None;
           PrintTotal "TOTAL ITEMS PROCESSED" 0]).
Proof.
  intros H0 Hfuel.
  rewrite (run_serves py_repr [] pages flags [] fuel); [done|done| |done|done].
  intros k Hk. simpl in Hk. assert (k = 0)%nat as -> by lia. done.
Qed.

Lemma empty_library_one_empty_submission_witness :
  run example_repr [] (finite_pages []) (λ _, false) 1 =
    Some (Ok 0%nat,
          [CallItems "report" 50 [];
           CallUpdateItems [] false;
           PrintBatch "PROCESSED INITIAL BATCH" 0 false;
           CallNext None;
           PrintTotal "TOTAL ITEMS PROCESSED" 0]).
Proof.
  apply (empty_library_one_empty_submission example_repr (finite_pages [])
           (λ _, false) 1); [reflexivity|lia].
Defined.

(** C4, as stated, fails: on an empty library the run makes one
    [update_items] call, not zero. *)
Lemma empty_library_submits_once :
  run example_repr [] (finite_pages []) (λ _, true) 1 =
    Some (Ok 0%nat,
          [CallItems "report" 50 [];
           CallUpdateItems [] true;
           PrintBatch "PROCESSED INITIAL BATCH" 0 true;
           CallNext None;
           PrintTotal "TOTAL ITEMS PROCESSED" 0]) ∧
  ¬ (∃ tr, run example_repr [] (finite_pages []) (λ _, true) 1 = Some (Ok 0%nat, tr) ∧
           submitted tr = []).
Proof.
  split; [reflexivity|].
  intros (tr & Hrun & Hsub). vm_compute in Hrun.
  injection Hrun as <-. discriminate Hsub.
Qed.

(** C5.  When the [j]-th [update_items] call returns [False], the run
    still ends normally: every page is fetched, one payload is sent per
    page and no other, and the total counts every page, the one whose
    submission failed included. *)
Theorem failed_batch_does_not_stop (py_repr : value → string)
    (first_page : list value) (rest : list (list value))
    (flags : nat → bool) (fuel j : nat) :
  forallb is_page (first_page :: rest) = true →
  (length rest < fuel)%nat →
  (j ≤ length rest)%nat →
  flags j = false →
  ∃ tr,
    run py_repr first_page (finite_pages rest) flags fuel =
      Some (Ok (sum_list (length <$> first_page :: rest)), tr) ∧
    successes tr !! j = Some false ∧
    fetched tr = first_page :: rest ∧
    submitted tr = updates_of py_repr <$> first_page :: rest ∧
    reported_total tr = Some (sum_list (length <$> first_page :: rest)).
Proof.
  intros Hok Hfuel Hj Hfalse. eexists. split; [by apply run_finite|].
  split.
  { rewrite successes_run_trace, list_lookup_fmap.
    rewrite lookup_seq_lt by lia. simpl. by rewrite Hfalse. }
  split; [apply fetched_run_trace|].
  split; [apply submitted_run_trace|apply reported_total_run_trace].
Qed.

Lemma failed_batch_does_not_stop_witness :
  ∃ tr,
    run example_repr [example_item; example_item]
      (finite_pages [[empty_ids_item]; [example_item; empty_ids_item; example_item]])
      (λ j, negb (Nat.eqb j 1)) 3 = Some (Ok 6, tr) ∧
    successes tr !! 1%nat = Some false ∧
    fetched tr =
      [[example_item; example_item]; [empty_ids_item];
       [example_item; empty_ids_item; example_item]] ∧
    submitted tr =
      updates_of example_repr <$>
        [[example_item; example_item]; [empty_ids_item];
         [example_item; empty_ids_item; example_item]] ∧
    reported_total tr = Some 6.
Proof.
  apply (failed_batch_does_not_stop example_repr [example_item; example_item]
           [[empty_ids_item]; [example_item; empty_ids_item; example_item]]
           (λ j, negb (Nat.eqb j 1)) 3 1);
    [reflexivity|simpl; lia|simpl; lia|reflexivity].
Defined.

(** C6.  One [update_items] call per page returned, in the order of the
    pages; its payload is the image of the page under [add_w3id_url], item
    by item, so it has the length and the order of the page.  Pages of at
    most 50 items therefore give payloads of at most 50 update requests. *)
Theorem one_submission_per_page (py_repr : value → string)
    (first_page : list value) (rest : list (list value))
    (flags : nat → bool) (fuel : nat) :
  forallb is_page (first_page :: rest) = true →
  (length rest < fuel)%nat →
  ∃ total tr,
    run py_repr first_page (finite_pages rest) flags fuel = Some (Ok total, tr) ∧
    fetched tr = first_page :: rest ∧
    Forall2 (λ page payload,
               Forall2 (λ item update, add_w3id_url py_repr item = Ok update)
                 page payload)
      (fetched tr) (submitted tr) ∧
    (Forall (λ page, length page ≤ 50)%nat (first_page :: rest) →
     Forall (λ payload, length payload ≤ 50)%nat (submitted tr)).
Proof.
  intros Hok Hfuel.
  pose proof (forallb_is_page_Forall _ Hok) as Hall.
  eexists _, _. split; [by apply run_finite|].
  rewrite fetched_run_trace, submitted_run_trace.
  split; [done|]. split.
  - apply Forall2_fmap_r, Forall_Forall2_diag.
    eapply Forall_impl; [exact Hall|]. intros page Hpage.
    by apply updates_of_pointwise.
  - intros Hmax. apply Forall_fmap.
    apply Forall_forall. intros page Hin. simpl.
    rewrite Forall_forall in Hall, Hmax.
    rewrite updates_of_length by auto. auto.
Qed.

Lemma one_submission_per_page_witness :
  ∃ total tr,
    run example_repr [example_item; empty_ids_item]
      (finite_pages [[empty_ids_item]]) (λ _, true) 2 = Some (Ok total, tr) ∧
    fetched tr = [[example_item; empty_ids_item]; [empty_ids_item]] ∧
    Forall2 (λ page payload,
               Forall2 (λ item update, add_w3id_url example_repr item = Ok update)
                 page payload)
      (fetched tr) (submitted tr) ∧
    (Forall (λ page, length page ≤ 50)%nat
       [[example_item; empty_ids_item]; [empty_ids_item]] →
     Forall (λ payload, length payload ≤ 50)%nat (submitted tr)).
Proof.
  apply (one_submission_per_page example_repr [example_item; empty_ids_item]
           [[empty_ids_item]] (λ _, true) 2); [reflexivity|simpl; lia].
Defined.

(** C7.  Every update request of every payload sent comes from an item of
    a page; it is a dictionary with the three keys ["key"], ["version"] and
    ["url"] and no other, holding the item's key, the item's version as it
    was read, and the derived url. *)
Theorem update_has_three_fields (py_repr : value → string)
    (first_page : list value) (rest : list (list value))
    (flags : nat → bool) (fuel : nat) :
  forallb is_page (first_page :: rest) = true →
  (length rest < fuel)%nat →
  ∃ total tr,
    run py_repr first_page (finite_pages rest) flags fuel = Some (Ok total, tr) ∧
    ∀ payload update,
      payload ∈ submitted tr → update ∈ payload →
      ∃ page item,
        page ∈ first_page :: rest ∧ item ∈ page ∧
        is_update_of py_repr item update.
Proof.
  intros Hok Hfuel.
  pose proof (forallb_is_page_Forall _ Hok) as Hall.
  eexists _, _. split; [by apply run_finite|].
  rewrite submitted_run_trace. intros payload update Hpayload Hupdate.
  apply list_elem_of_fmap in Hpayload as (page & -> & Hpage).
  rewrite Forall_forall in Hall.
  pose proof (updates_of_pointwise py_repr page (Hall _ Hpage)) as Hpt.
  apply list_elem_of_lookup in Hupdate as [i Hi].
  destruct (Forall2_lookup_r _ _ _ _ _ Hpt Hi) as (item & Hitem & Hadd).
  exists page, item. split; [done|]. split.
  - apply list_elem_of_lookup. by exists i.
  - by apply add_w3id_url_is_update.
Qed.

Lemma update_has_three_fields_witness :
  ∃ total tr,
    run example_repr [example_item] (finite_pages [[empty_ids_item]])
      (λ _, true) 2 = Some (Ok total, tr) ∧
    ∀ payload update,
      payload ∈ submitted tr → update ∈ payload →
      ∃ page item,
        page ∈ [[example_item]; [empty_ids_item]] ∧ item ∈ page ∧
        is_update_of example_repr item update.
Proof.
  apply (update_has_three_fields example_repr [example_item]
           [[empty_ids_item]] (λ _, true) 2); [reflexivity|simpl; lia].
Defined.

(** C8.  The run returns for some bound on the number of iterator steps
    exactly when the iterator stops at some step; and when it stops at
    step [n], the run returns within [n + 1] steps, normally, with a total
    that it prints. *)
Theorem loop_finite_iff_iterator_exhausted (py_repr : value → string)
    (first_page : list value) (pages : nat → option (list value))
    (flags : nat → bool) :
  is_page first_page = true →
  (∀ k page, pages k = Some page → is_page page = true) →
  ((∃ fuel r, run py_repr first_page pages flags fuel = Some r) ↔
   (∃ n, pages n = None)) ∧
  (∀ n, pages n = None →
     ∃ total tr,
       run py_repr first_page pages flags (S n) = Some (Ok total, tr) ∧
       reported_total tr = Some total).
Proof.
  intros Hp Hall.
  assert (∀ n, pages n = None →
            ∃ total tr,
              run py_repr first_page pages flags (S n) = Some (Ok total, tr) ∧
              reported_total tr = Some total) as Hstop.
  { intros n Hn.
    destruct (exhausted_serves pages n 0) as (rest & Hlen & Hs).
    { by rewrite Nat.add_0_r. }
    eexists _, _. split.
    - apply (run_serves py_repr _ _ _ rest); [done|done| |lia].
      by apply (serves_is_page pages 0).
    - apply reported_total_run_trace. }
  split; [|exact Hstop]. split.
  - intros (fuel & r & Hrun). by apply (run_Some_exhausted py_repr _ _ _ _ _ Hp Hall Hrun).
  - intros [n Hn]. destruct (Hstop n Hn) as (total & tr & Hrun & _).
    by exists (S n), (Ok total, tr).
Qed.

Lemma loop_finite_iff_iterator_exhausted_witness :
  ((∃ fuel r, run example_repr [example_item]
                (finite_pages [[empty_ids_item]; [example_item]])
                (λ _, true) fuel = Some r) ↔
   (∃ n, finite_pages [[empty_ids_item]; [example_item]] n = None)) ∧
  (∀ n, finite_pages [[empty_ids_item]; [example_item]] n = None →
     ∃ total tr,
       run example_repr [example_item]
         (finite_pages [[empty_ids_item]; [example_item]])
         (λ _, true) (S n) = Some (Ok total, tr) ∧
       reported_total tr = Some total).
Proof.
  apply (loop_finite_iff_iterator_exhausted example_repr [example_item]
           (finite_pages [[empty_ids_item]; [example_item]]) (λ _, true)).
  - reflexivity.
  - intros [|[|k]] page; simpl; intros H;
      [injection H as <-; reflexivity ..|discriminate H].
Defined.

(** C9.  Two runs over the same pages, with any two scripts of
    [update_items] results and the same bound on the iterator steps, end
    alike: both out of steps, or both with the same total or the same
    exception, the same pages fetched, the same payloads sent, the same
    total printed, and traces that are equal once the results returned and
    printed are blanked. *)
Theorem success_flags_do_not_steer (py_repr : value → string)
    (first_page : list value) (pages : nat → option (list value))
    (flags1 flags2 : nat → bool) (fuel : nat) :
  match run py_repr first_page pages flags1 fuel,
        run py_repr first_page pages flags2 fuel with
  | Some (r1, tr1), Some (r2, tr2) =>
      r1 = r2 ∧
      fetched tr1 = fetched tr2 ∧
      submitted tr1 = submitted tr2 ∧
      reported_total tr1 = reported_total tr2 ∧
      blank <$> tr1 = blank <$> tr2
  | None, None => True
  | _, _ => False
  end.
Proof.
  pose proof (run_agree py_repr first_page pages flags1 flags2 fuel) as H.
  destruct (run py_repr first_page pages flags1 fuel) as [[r1 tr1]|],
           (run py_repr first_page pages flags2 fuel) as [[r2 tr2]|];
    simpl in H; try discriminate; [|done].
  injection H as -> Htr. split; [done|].
  rewrite <- (fetched_blank tr1), <- (fetched_blank tr2).
  rewrite <- (submitted_blank tr1), <- (submitted_blank tr2).
  rewrite <- (reported_total_blank tr1), <- (reported_total_blank tr2).
  by rewrite Htr.
Qed.

(** C10.  [add_w3id_url] returns an update request, and raises nothing, on
    every item that has a string for library id, a string for key, and a
    version; the strings may be empty. *)
Theorem add_w3id_url_total (py_repr : value → string)
    (item library version : value) (L K : string) :
  getitem item "library" = Ok library →
  getitem library "id" = Ok (VStr L) →
  getitem item "key" = Ok (VStr K) →
  getitem item "version" = Ok version →
  ∃ update, add_w3id_url py_repr item = Ok update.
Proof.
  intros H1 H2 H3 H4. eexists.
  apply (add_w3id_url_fields _ _ _ _ _ _ H1 H2 H3 H4).
Qed.

Lemma add_w3id_url_total_witness :
  ∃ update, add_w3id_url example_repr empty_ids_item = Ok update.
Proof.
  apply (add_w3id_url_total example_repr empty_ids_item
           (VDict {[ "id" := VStr "" ]}) (VInt 0) "" ""); reflexivity.
Defined.

(** * Further properties *)

(** ** [add_w3id_url] *)

Section Derivation.

Variable py_repr : value → string.

Lemma getitem_present (d : gmap string value) (k : string) (v : value) :
  getitem (VDict d) k = Ok v → present d k = true.
Proof.
  unfold present. simpl. by destruct (d !! k).
Qed.

Lemma add_w3id_url_Ok_is_item (item update : value) :
  add_w3id_url py_repr item = Ok update → is_item item = true.
Proof.
  intros H.
  destruct (add_w3id_url_inv _ _ _ H)
    as (library & library_id & item_key & version & H1 & H2 & H3 & H4).
  apply getitem_Ok in H1 as (d & -> & H1).
  apply getitem_Ok in H2 as (lib & -> & H2).
  simpl. rewrite H1.
  rewrite (getitem_present _ _ _ H3), (getitem_present _ _ _ H4).
  unfold present. by rewrite H2.
Qed.

End Derivation.

(** X1.  [add_w3id_url] returns an update request exactly on the
    dictionaries that have a key, a version and a library that is a
    dictionary with an id; on every other object it raises. *)
Theorem add_w3id_url_succeeds_iff (py_repr : value → string) (item : value) :
  (∃ update, add_w3id_url py_repr item = Ok update) ↔ is_item item = true.
Proof.
  split.
  - intros [update H]. by apply (add_w3id_url_Ok_is_item py_repr item update).
  - apply is_item_Ok.
Qed.

(** X2.  When [add_w3id_url] raises, it is a [TypeError] for an item, or a
    library, that is not a dictionary, and otherwise the [KeyError] of the
    first field that is missing, in the order library, id, key, version. *)
Theorem add_w3id_url_raises (py_repr : value → string) (item : value) (e : exn) :
  add_w3id_url py_repr item = Raise e →
  (e = TypeError ∧ ∀ d, item ≠ VDict d) ∨
  ∃ d, item = VDict d ∧
    ((e = KeyError "library" ∧ d !! "library" = None) ∨
     (e = TypeError ∧ ∃ v, d !! "library" = Some v ∧ ∀ lib, v ≠ VDict lib) ∨
     ∃ lib, d !! "library" = Some (VDict lib) ∧
       ((e = KeyError "id" ∧ lib !! "id" = None) ∨
        (e = KeyError "key" ∧ is_Some (lib !! "id") ∧ d !! "key" = None) ∨
        (e = KeyError "version" ∧ is_Some (lib !! "id") ∧
         is_Some (d !! "key") ∧ d !! "version" = None))).
Proof.
  unfold add_w3id_url.
  destruct item as [| | | | |d]; simpl;
    try (intros [= <-]; left; split; [done|intros d; discriminate]).
  intros H. right. exists d. split; [done|].
  destruct (d !! "library") as [v|] eqn:Hl; simpl in H;
    [|injection H as <-; by left].
  right.
  destruct v as [| | | | |lib]; simpl in H;
    try (injection H as <-; left; split; [done|];
         eexists; split; [done|intros lib; discriminate]).
  right. exists lib. split; [done|].
  destruct (lib !! "id") as [library_id|] eqn:Hi; simpl in H;
    [|injection H as <-; by left].
  right.
  destruct (d !! "key") as [item_key|] eqn:Hk; simpl in H;
    [|injection H as <-; left; by eauto].
  destruct (d !! "version") as [version|] eqn:Hv; simpl in H; [discriminate|].
  injection H as <-. right. by eauto.
Qed.

Lemma add_w3id_url_raises_witness :
  (KeyError "key" = TypeError ∧ ∀ d, VDict {[ "library" := VDict {[ "id" := VInt 1 ]} ]} ≠ VDict d) ∨
  ∃ d, VDict {[ "library" := VDict {[ "id" := VInt 1 ]} ]} = VDict d ∧
    ((KeyError "key" = KeyError "library" ∧ d !! "library" = None) ∨
     (KeyError "key" = TypeError ∧
      ∃ v, d !! "library" = Some v ∧ ∀ lib, v ≠ VDict lib) ∨
     ∃ lib, d !! "library" = Some (VDict lib) ∧
       ((KeyError "key" = KeyError "id" ∧ lib !! "id" = None) ∨
        (KeyError "key" = KeyError "key" ∧ is_Some (lib !! "id") ∧
         d !! "key" = None) ∨
        (KeyError "key" = KeyError "version" ∧ is_Some (lib !! "id") ∧
         is_Some (d !! "key") ∧ d !! "version" = None))).
Proof.
  apply (add_w3id_url_raises example_repr
           (VDict {[ "library" := VDict {[ "id" := VInt 1 ]} ]})
           (KeyError "key")).
  reflexivity.
Defined.



(** ** Which items share a url *)

Lemma slash_free_split (L1 L2 K1 K2 : string) :
  slash_free L1 = true → slash_free L2 = true →
  L1 +:+ "/" +:+ K1 = L2 +:+ "/" +:+ K2 → L1 = L2 ∧ K1 = K2.
Proof.
  revert L2. induction L1 as [|c1 L1 IH]; intros [|c2 L2]; simpl.
  - intros _ _ H. by simplify_eq.
  - intros _ H2 H. by simplify_eq.
  - intros H1 _ H. by simplify_eq.
  - rewrite !andb_true_iff. intros [_ H1] [_ H2] H.
    injection H as -> H.
    destruct (IH L2 H1 H2 H) as [-> ->]. done.
Qed.

Lemma slash_free_pretty_N_go (x : N) (s : string) :
  slash_free s = true → slash_free (pretty_N_go x s) = true.
Proof.
  revert s. induction (N.lt_wf_0 x) as [x _ IH]; intros s Hs.
  assert (x = 0 ∨ 0 < x)%N as [->|Hx] by lia.
  - by rewrite pretty_N_go_0.
  - rewrite pretty_N_go_step by done. apply IH.
    { by apply N.div_lt. }
    simpl. rewrite Hs. unfold pretty_N_char. by repeat case_match.
Qed.

Lemma slash_free_pretty_Z (n : Z) : slash_free (pretty n) = true.
Proof.
  assert (∀ x : N, slash_free (pretty x) = true) as HN.
  { intros x. unfold pretty, pretty_N. case_decide; [done|].
    by apply slash_free_pretty_N_go. }
  destruct n as [|p|p]; [done|apply (HN (Npos p))|].
  change (pretty (Z.neg p)) with ("-" +:+ pretty (Npos p)).
  simpl. apply (HN (Npos p)).
Qed.

(** The url of the update request, from the fields of the item. *)
Lemma add_w3id_url_url (py_repr : value → string)
    (item library library_id item_key update : value) :
  getitem item "library" = Ok library →
  getitem library "id" = Ok library_id →
  getitem item "key" = Ok item_key →
  add_w3id_url py_repr item = Ok update →
  getitem update "url" =
    Ok (VStr ("https://w3id.org/usgs/z/" +:+ format_value py_repr library_id
              +:+ "/" +:+ format_value py_repr item_key)).
Proof.
  intros H1 H2 H3 H.
  destruct (add_w3id_url_inv _ _ _ H) as (l & i & k & version & _ & _ & _ & H4).
  rewrite (add_w3id_url_fields _ _ _ _ _ _ H1 H2 H3 H4) in H.
  by injection H as <-.
Qed.

Lemma url_eq_key_eq (py_repr : value → string)
    (item1 item2 library1 library2 library_id update1 update2 : value)
    (K1 K2 : string) :
  getitem item1 "library" = Ok library1 →
  getitem item2 "library" = Ok library2 →
  getitem library1 "id" = Ok library_id →
  getitem library2 "id" = Ok library_id →
  getitem item1 "key" = Ok (VStr K1) →
  getitem item2 "key" = Ok (VStr K2) →
  add_w3id_url py_repr item1 = Ok update1 →
  add_w3id_url py_repr item2 = Ok update2 →
  getitem update1 "url" = getitem update2 "url" →
  K1 = K2.
Proof.
  intros Hl1 Hl2 Hi1 Hi2 Hk1 Hk2 Hu1 Hu2.
  rewrite (add_w3id_url_url _ _ _ _ _ _ Hl1 Hi1 Hk1 Hu1).
  rewrite (add_w3id_url_url _ _ _ _ _ _ Hl2 Hi2 Hk2 Hu2).
  intros [= H]. by do 3 apply (inj (String.app _)) in H.
Qed.

Lemma url_eq_split (py_repr : value → string)
    (item1 item2 library1 library2 id1 id2 update1 update2 : value)
    (K1 K2 : string) :
  getitem item1 "library" = Ok library1 →
  getitem item2 "library" = Ok library2 →
  getitem library1 "id" = Ok id1 →
  getitem library2 "id" = Ok id2 →
  getitem item1 "key" = Ok (VStr K1) →
  getitem item2 "key" = Ok (VStr K2) →
  slash_free (format_value py_repr id1) = true →
  slash_free (format_value py_repr id2) = true →
  add_w3id_url py_repr item1 = Ok update1 →
  add_w3id_url py_repr item2 = Ok update2 →
  getitem update1 "url" = getitem update2 "url" →
  format_value py_repr id1 = format_value py_repr id2 ∧ K1 = K2.
Proof.
  intros Hl1 Hl2 Hi1 Hi2 Hk1 Hk2 Hs1 Hs2 Hu1 Hu2.
  rewrite (add_w3id_url_url _ _ _ _ _ _ Hl1 Hi1 Hk1 Hu1).
  rewrite (add_w3id_url_url _ _ _ _ _ _ Hl2 Hi2 Hk2 Hu2).
  intros [= H]. apply (inj (String.app _)) in H.
  by apply slash_free_split.
Qed.

(** X4.  Within one library the url tells the items apart: two items with
    the same library id, whatever it is, and different string keys get
    different urls. *)
Theorem same_library_distinct_keys_distinct_urls (py_repr : value → string)
    (item1 item2 library1 library2 library_id update1 update2 : value)
    (K1 K2 : string) :
  getitem item1 "library" = Ok library1 →
  getitem item2 "library" = Ok library2 →
  getitem library1 "id" = Ok library_id →
  getitem library2 "id" = Ok library_id →
  getitem item1 "key" = Ok (VStr K1) →
  getitem item2 "key" = Ok (VStr K2) →
  add_w3id_url py_repr item1 = Ok update1 →
  add_w3id_url py_repr item2 = Ok update2 →
  K1 ≠ K2 →
  getitem update1 "url" ≠ getitem update2 "url".
Proof.
  intros Hl1 Hl2 Hi1 Hi2 Hk1 Hk2 Hu1 Hu2 Hne Hurl. apply Hne.
  by apply (url_eq_key_eq py_repr item1 item2 library1 library2 library_id
              update1 update2).
Qed.

Lemma same_library_distinct_keys_distinct_urls_witness :
  getitem (VDict {[ "key" := VStr "ABC123"; "version" := VInt 7;
                    "url" := VStr "https://w3id.org/usgs/z/4530692/ABC123" ]})
    "url" ≠
  getitem (VDict {[ "key" := VStr "XYZ789"; "version" := VInt 8;
                    "url" := VStr "https://w3id.org/usgs/z/4530692/XYZ789" ]})
    "url".
Proof.
  apply (same_library_distinct_keys_distinct_urls example_repr
           example_item
           (VDict {[ "key" := VStr "XYZ789"; "version" := VInt 8;
                     "library" := VDict {[ "id" := VStr "4530692" ]} ]})
           (VDict {[ "type" := VStr "group"; "id" := VStr "4530692" ]})
           (VDict {[ "id" := VStr "4530692" ]})
           (VStr "4530692")
           _ _ "ABC123" "XYZ789"); try reflexivity. discriminate.
Defined.

(** X5.  Across libraries: two items whose library ids are strings without
    a slash, and whose keys are strings, get different urls unless they
    have the same library id and the same key. *)
Theorem distinct_items_distinct_urls (py_repr : value → string)
    (item1 item2 library1 library2 update1 update2 : value)
    (L1 L2 K1 K2 : string) :
  getitem item1 "library" = Ok library1 →
  getitem item2 "library" = Ok library2 →
  getitem library1 "id" = Ok (VStr L1) →
  getitem library2 "id" = Ok (VStr L2) →
  getitem item1 "key" = Ok (VStr K1) →
  getitem item2 "key" = Ok (VStr K2) →
  slash_free L1 = true →
  slash_free L2 = true →
  add_w3id_url py_repr item1 = Ok update1 →
  add_w3id_url py_repr item2 = Ok update2 →
  (L1, K1) ≠ (L2, K2) →
  getitem update1 "url" ≠ getitem update2 "url".
Proof.
  intros Hl1 Hl2 Hi1 Hi2 Hk1 Hk2 Hs1 Hs2 Hu1 Hu2 Hne Hurl. apply Hne.
  destruct (url_eq_split py_repr item1 item2 library1 library2
              (VStr L1) (VStr L2) update1 update2 K1 K2) as [HL HK]; try done.
  simpl in HL. by rewrite HL, HK.
Qed.

Lemma distinct_items_distinct_urls_witness :
  getitem (VDict {[ "key" := VStr "ABC123"; "version" := VInt 7;
                    "url" := VStr "https://w3id.org/usgs/z/4530692/ABC123" ]})
    "url" ≠
  getitem (VDict {[ "key" := VStr "ABC123"; "version" := VInt 8;
                    "url" := VStr "https://w3id.org/usgs/z/453069/ABC123" ]})
    "url".
Proof.
  apply (distinct_items_distinct_urls example_repr
           example_item
           (VDict {[ "key" := VStr "ABC123"; "version" := VInt 8;
                     "library" := VDict {[ "id" := VStr "453069" ]} ]})
           (VDict {[ "type" := VStr "group"; "id" := VStr "4530692" ]})
           (VDict {[ "id" := VStr "453069" ]})
           _ _ "4530692" "453069" "ABC123" "ABC123"); try reflexivity.
  discriminate.
Defined.

(** A library id with a slash in it can make two items share a url. *)
Example slash_in_library_id_collides :
  (update ← add_w3id_url example_repr
              (VDict {[ "key" := VStr "c"; "version" := VInt 1;
                        "library" := VDict {[ "id" := VStr "a/b" ]} ]});
   getitem update "url") =
  (update ← add_w3id_url example_repr
              (VDict {[ "key" := VStr "b/c"; "version" := VInt 1;
                        "library" := VDict {[ "id" := VStr "a" ]} ]});
   getitem update "url").
Proof. reflexivity. Qed.

(** X6.  With numeric library ids, as the Zotero API gives them, and
    string keys, two items get different urls unless they have the same
    library id and the same key. *)
Theorem numeric_library_distinct_items_distinct_urls (py_repr : value → string)
    (item1 item2 library1 library2 update1 update2 : value)
    (n1 n2 : Z) (K1 K2 : string) :
  getitem item1 "library" = Ok library1 →
  getitem item2 "library" = Ok library2 →
  getitem library1 "id" = Ok (VInt n1) →
  getitem library2 "id" = Ok (VInt n2) →
  getitem item1 "key" = Ok (VStr K1) →
  getitem item2 "key" = Ok (VStr K2) →
  add_w3id_url py_repr item1 = Ok update1 →
  add_w3id_url py_repr item2 = Ok update2 →
  (n1, K1) ≠ (n2, K2) →
  getitem update1 "url" ≠ getitem update2 "url".
Proof.
  intros Hl1 Hl2 Hi1 Hi2 Hk1 Hk2 Hu1 Hu2 Hne Hurl. apply Hne.
  destruct (url_eq_split py_repr item1 item2 library1 library2
              (VInt n1) (VInt n2) update1 update2 K1 K2) as [Hn HK];
    try done; try apply slash_free_pretty_Z.
  simpl in Hn. apply (inj pretty) in Hn. by rewrite Hn, HK.
Qed.

Lemma numeric_library_distinct_items_distinct_urls_witness :
  getitem (VDict {[ "key" := VStr "ABC123"; "version" := VInt 7;
                    "url" := VStr "https://w3id.org/usgs/z/4530692/ABC123" ]})
    "url" ≠
  getitem (VDict {[ "key" := VStr "ABC123"; "version" := VInt 7;
                    "url" := VStr "https://w3id.org/usgs/z/45306/ABC123" ]})
    "url".
Proof.
  apply (numeric_library_distinct_items_distinct_urls example_repr
           (VDict {[ "key" := VStr "ABC123"; "version" := VInt 7;
                     "library" := VDict {[ "id" := VInt 4530692 ]} ]})
           (VDict {[ "key" := VStr "ABC123"; "version" := VInt 7;
                     "library" := VDict {[ "id" := VInt 45306 ]} ]})
           (VDict {[ "id" := VInt 4530692 ]})
           (VDict {[ "id" := VInt 45306 ]})
           _ _ 4530692%Z 45306%Z "ABC123" "ABC123"); try reflexivity.
  discriminate.
Defined.

(** ** [process_batch] *)

Lemma process_batch_parts (py_repr : value → string) (batch1 batch2 : list value) :
  process_batch py_repr (batch1 ++ batch2)%list =
    (updates1 ← process_batch py_repr batch1;
     updates2 ← process_batch py_repr batch2;
     mret (updates1 ++ updates2)%list).
Proof.
  induction batch1 as [|item batch1 IH].
  - simpl. by destruct (process_batch py_repr batch2).
  - change ((item :: batch1) ++ batch2)%list with (item :: (batch1 ++ batch2))%list.
    rewrite !process_batch_cons, IH.
    destruct (add_w3id_url py_repr item) as [update|e]; [|done]. simpl.
    destruct (process_batch py_repr batch1) as [updates1|e]; [|done]. simpl.
    by destruct (process_batch py_repr batch2).
Qed.

(** X7.  A batch made of two parts is processed part by part: the result is
    the updates of the first followed by the updates of the second, and the
    exception, if any, is that of the first part that raises. *)
Theorem process_batch_app (py_repr : value → string) (batch1 batch2 : list value) :
  process_batch py_repr (batch1 ++ batch2)%list =
    match process_batch py_repr batch1, process_batch py_repr batch2 with
    | Ok updates1, Ok updates2 => Ok (updates1 ++ updates2)%list
    | Ok _, Raise e => Raise e
    | Raise e, _ => Raise e
    end.
Proof.
  rewrite process_batch_parts.
  destruct (process_batch py_repr batch1) as [updates1|e]; [|done]. simpl.
  by destruct (process_batch py_repr batch2).
Qed.

(** X8.  A batch is all or nothing: if one item cannot be processed, the
    batch raises the exception of the first such item and gives no update
    at all, whatever the items before and after it. *)
Theorem process_batch_first_failure (py_repr : value → string)
    (good rest : list value) (bad : value) (e : exn) :
  is_page good = true →
  add_w3id_url py_repr bad = Raise e →
  process_batch py_repr (good ++ bad :: rest)%list = Raise e.
Proof.
  intros Hgood Hbad. rewrite process_batch_parts.
  rewrite (is_page_Ok py_repr good Hgood), process_batch_cons, Hbad. done.
Qed.

Lemma process_batch_first_failure_witness :
  process_batch example_repr
    ([example_item; empty_ids_item] ++
     VDict {[ "key" := VStr "NOVERSION";
              "library" := VDict {[ "id" := VStr "4530692" ]} ]}
     :: [VInt 3; example_item])%list =
  Raise (KeyError "version").
Proof.
  apply (process_batch_first_failure example_repr
           [example_item; empty_ids_item] [VInt 3; example_item]
           (VDict {[ "key" := VStr "NOVERSION";
                     "library" := VDict {[ "id" := VStr "4530692" ]} ]})
           (KeyError "version")); reflexivity.
Defined.


(** ** Runs on any client *)

Section AnyRun.

Variable py_repr : value → string.
Context (C : Collaborator).

Lemma for_loop_shape (fuel : nat) :
  ∀ (total : nat) (w w' : world C) (r : result nat),
    for_loop py_repr C fuel total w = Some (r, w') →
    ∃ suffix, trace C w' = (trace C w ++ suffix)%list ∧
              loop_shape py_repr total suffix r.
Proof.
  induction fuel as [|fuel IH]; intros total [c tr] w' r; [discriminate|].
  simpl. unfold call_next. simpl.
  destruct (iter_next C c) as [[page|] c1] eqn:Hn; simpl.
  - unfold loop_body, mbind, script_bind, lift, call_update_items, log, mret,
      script_ret.
    destruct (process_batch py_repr page) as [updates|e] eqn:Hpb; simpl.
    + destruct (update_items C updates c1) as [success c2] eqn:Hu. simpl.
      intros Hloop. apply IH in Hloop as (suffix & Htr & Hshape).
      simpl in Htr. eexists. split.
      * rewrite Htr, <- !app_assoc. reflexivity.
      * simpl. by eapply loop_goes_on.
    + intros [= <- <-]. simpl. eexists. split; [reflexivity|].
      by apply loop_raises.
  - intros [= <- <-]. simpl. eexists. split; [reflexivity|].
    apply loop_stops.
Qed.

Lemma notebook_shape (c0 : conn C) (fuel : nat) (r : result nat) (tr : list event) :
  observed C (notebook py_repr C fuel (World C c0 [])) = Some (r, tr) →
  run_shape py_repr tr r.
Proof.
  unfold notebook.
  unfold fetch_first, call_items, initial_batch, call_update_items, log, lift.
  unfold mbind, script_bind, mret, script_ret. simpl.
  destruct (items C "report" 50 c0) as [page0 c1] eqn:H0. simpl.
  destruct (process_batch py_repr page0) as [updates|e] eqn:Hpb; simpl.
  - destruct (update_items C updates c1) as [success c2] eqn:Hu. simpl.
    destruct (for_loop py_repr C fuel (length page0) _)
      as [[[total|e] w']|] eqn:Hloop; simpl; [| |discriminate].
    + intros [= <- <-].
      apply for_loop_shape in Hloop as (suffix & -> & Hshape). simpl.
      by apply run_ends.
    + intros [= <- <-].
      apply for_loop_shape in Hloop as (suffix & -> & Hshape). simpl.
      by apply run_raises_later.
  - intros [= <- <-]. by apply run_raises_at_once.
Qed.

End AnyRun.

(** ** What every trace of the notebook has *)

Section Shapes.

Variable py_repr : value → string.




End Shapes.

Lemma pending_after_app (pending : bool) (tr1 tr2 : list event) :
  pending_after pending (tr1 ++ tr2) =
    (pending' ← pending_after pending tr1; pending_after pending' tr2).
Proof.
  revert pending. induction tr1 as [|e tr1 IH]; intros pending; [done|].
  destruct e as [?? page|[page|]|??|???|??], pending; simpl; by rewrite ?IH.
Qed.

Lemma loop_shape_pending (py_repr : value → string) (total : nat)
    (suffix : list event) (r : result nat) :
  loop_shape py_repr total suffix r →
  pending_after false suffix =
    Some (match r with Ok _ => false | Raise _ => true end).
Proof.
  induction 1 as [total|total page e H|total page updates success tr r H Hs IH];
    done.
Qed.

Lemma run_shape_pending (py_repr : value → string) (tr : list event)
    (r : result nat) :
  run_shape py_repr tr r →
  pending_after false tr =
    Some (match r with Ok _ => false | Raise _ => true end).
Proof.
  destruct 1 as [page e H|page updates success tr e H Hs
                |page updates success tr total H Hs]; [done|..].
  - simpl. by rewrite (loop_shape_pending _ _ _ _ Hs).
  - simpl. rewrite pending_after_app, (loop_shape_pending _ _ _ _ Hs). done.
Qed.

Lemma loop_shape_lines (py_repr : value → string) (total : nat)
    (suffix : list event) (r : result nat) :
  loop_shape py_repr total suffix r →
  lines suffix = pair "PROCESSED NEXT BATCH" <$> calls suffix.
Proof.
  induction 1 as [total|total page e H|total page updates success tr r H Hs IH];
    [done|done|].
  change (lines (CallNext (Some page) :: CallUpdateItems updates success
            :: PrintBatch "PROCESSED NEXT BATCH" (length updates) success :: tr))
    with (("PROCESSED NEXT BATCH", (length updates, success)) :: lines tr).
  change (calls (CallNext (Some page) :: CallUpdateItems updates success
            :: PrintBatch "PROCESSED NEXT BATCH" (length updates) success :: tr))
    with ((length updates, success) :: calls tr).
  by rewrite IH.
Qed.

Lemma run_shape_lines (py_repr : value → string) (tr : list event)
    (r : result nat) :
  run_shape py_repr tr r →
  lines tr =
    match calls tr with
    | [] => []
    | call :: later =>
        ("PROCESSED INITIAL BATCH", call)
          :: (pair "PROCESSED NEXT BATCH" <$> later)
    end.
Proof.
  destruct 1 as [page e H|page updates success tr e H Hs
                |page updates success tr total H Hs]; [done|..].
  - change (lines (CallItems "report" 50 page :: CallUpdateItems updates success
              :: PrintBatch "PROCESSED INITIAL BATCH" (length updates) success
              :: tr))
      with (("PROCESSED INITIAL BATCH", (length updates, success)) :: lines tr).
    change (calls (CallItems "report" 50 page :: CallUpdateItems updates success
              :: PrintBatch "PROCESSED INITIAL BATCH" (length updates) success
              :: tr))
      with ((length updates, success) :: calls tr).
    by rewrite (loop_shape_lines _ _ _ _ Hs).
  - change (lines (CallItems "report" 50 page :: CallUpdateItems updates success
              :: PrintBatch "PROCESSED INITIAL BATCH" (length updates) success
              :: tr ++ [PrintTotal "TOTAL ITEMS PROCESSED" total]))
      with (("PROCESSED INITIAL BATCH", (length updates, success))
              :: lines (tr ++ [PrintTotal "TOTAL ITEMS PROCESSED" total])).
    change (calls (CallItems "report" 50 page :: CallUpdateItems updates success
              :: PrintBatch "PROCESSED INITIAL BATCH" (length updates) success
              :: tr ++ [PrintTotal "TOTAL ITEMS PROCESSED" total]))
      with ((length updates, success)
              :: calls (tr ++ [PrintTotal "TOTAL ITEMS PROCESSED" total])).
    unfold lines, calls. rewrite !omap_app. simpl. rewrite !app_nil_r.
    fold (lines tr) (calls tr). by rewrite (loop_shape_lines _ _ _ _ Hs).
Qed.


(** X11.  On any client, pages are fetched and sent strictly in turn: in
    the trace of a run that ends, no page is fetched while another waits
    to be sent, and [update_items] is called only with a page waiting; a
    page is left waiting at the end only when the run raised. *)
Theorem one_page_at_a_time (py_repr : value → string)
    (C : Collaborator) (c0 : conn C) (fuel : nat) (r : result nat)
    (tr : list event) :
  observed C (notebook py_repr C fuel (World C c0 [])) = Some (r, tr) →
  pending_after false tr =
    Some (match r with Ok _ => false | Raise _ => true end).
Proof. intros H. by apply (run_shape_pending py_repr), (notebook_shape py_repr C c0 fuel). Qed.

(** X12.  On any client, the progress lines of a run that ends report the
    calls of [update_items] one for one and in order, each with the number
    of update requests sent and the result the call returned; the first
    line is the initial one, the others are the next ones. *)
Theorem progress_lines_report_calls (py_repr : value → string)
    (C : Collaborator) (c0 : conn C) (fuel : nat) (r : result nat)
    (tr : list event) :
  observed C (notebook py_repr C fuel (World C c0 [])) = Some (r, tr) →
  lines tr =
    match calls tr with
    | [] => []
    | call :: later =>
        ("PROCESSED INITIAL BATCH", call)
          :: (pair "PROCESSED NEXT BATCH" <$> later)
    end.
Proof. intros H. by apply (run_shape_lines py_repr _ r), (notebook_shape py_repr C c0 fuel). Qed.


Lemma one_page_at_a_time_witness :
  pending_after false
    (run_trace example_repr [example_item] [[]; [empty_ids_item]]
       (λ j, negb (Nat.eqb j 1))) = Some false.
Proof.
  apply (one_page_at_a_time example_repr queue_client
           [[example_item]; []; [empty_ids_item]] 3 (Ok 2)).
  reflexivity.
Defined.

Lemma progress_lines_report_calls_witness :
  lines (run_trace example_repr [example_item] [[]; [empty_ids_item]]
           (λ j, negb (Nat.eqb j 1))) =
    match calls (run_trace example_repr [example_item] [[]; [empty_ids_item]]
                   (λ j, negb (Nat.eqb j 1))) with
    | [] => []
    | call :: later =>
        ("PROCESSED INITIAL BATCH", call)
          :: (pair "PROCESSED NEXT BATCH" <$> later)
    end.
Proof.
  apply (progress_lines_report_calls example_repr queue_client
           [[example_item]; []; [empty_ids_item]] 3 (Ok 2)).
  reflexivity.
Defined.

(** ** A page that cannot be processed *)

Section Aborts.

Variable py_repr : value → string.
Variable first_page : list value.
Variable pages : nat → option (list value).
Variable flags : nat → bool.

Let C : Collaborator := scripted first_page pages flags.

Lemma loop_body_raises (page : list value) (total : nat) (w : world C) (e : exn) :
  process_batch py_repr page = Raise e →
  loop_body py_repr C page total w = (Raise e, w).
Proof.
  intros H. unfold loop_body, mbind, script_bind, lift. by rewrite H.
Qed.

Lemma for_loop_aborts (sent : list (list value)) (bad : list value) (e : exn) :
  ∀ (i j total : nat) (tr : list event) (fuel : nat),
    (∀ k : nat, (k < length sent)%nat → pages (k + i)%nat = sent !! k) →
    pages (length sent + i)%nat = Some bad →
    forallb is_page sent = true →
    process_batch py_repr bad = Raise e →
    (length sent < fuel)%nat →
    for_loop py_repr C fuel total (World C (ScriptState i j) tr) =
    Some (Raise e,
          World C (ScriptState (S (length sent) + i) (length sent + j))
            (tr ++ loop_abort_trace py_repr sent bad flags j)).
Proof.
  induction sent as [|page sent IH]; intros i j total tr fuel Hs Hbad Hok He Hfuel.
  - destruct fuel as [|fuel]; [simpl in Hfuel; lia|].
    simpl in Hbad. simpl. unfold call_next. simpl. rewrite Hbad.
    by rewrite (loop_body_raises _ _ _ _ He).
  - destruct fuel as [|fuel]; [simpl in Hfuel; lia|].
    simpl in Hok. apply andb_true_iff in Hok as [Hp Hok].
    pose proof (Hs 0%nat) as H0. simpl in H0.
    simpl. unfold call_next. simpl. rewrite H0 by lia.
    rewrite (loop_body_scripted py_repr first_page pages flags _ _ _ _ _ Hp).
    rewrite (IH (S i) (S j)).
    + f_equal. f_equal. f_equal; [f_equal; lia|]. by rewrite <- !app_assoc.
    + intros k Hk. specialize (Hs (S k)). simpl in Hs.
      rewrite Nat.add_succ_r. apply Hs. lia.
    + rewrite Nat.add_succ_r. exact Hbad.
    + done.
    + done.
    + simpl in Hfuel. lia.
Qed.

End Aborts.

Lemma fetched_loop_abort_trace (py_repr : value → string)
    (sent : list (list value)) (bad : list value) (flags : nat → bool) (j : nat) :
  fetched (loop_abort_trace py_repr sent bad flags j) = (sent ++ [bad])%list.
Proof.
  revert j. induction sent as [|page sent IH]; intros j; [done|].
  simpl. f_equal. apply IH.
Qed.

Lemma submitted_loop_abort_trace (py_repr : value → string)
    (sent : list (list value)) (bad : list value) (flags : nat → bool) (j : nat) :
  submitted (loop_abort_trace py_repr sent bad flags j) =
    updates_of py_repr <$> sent.
Proof.
  revert j. induction sent as [|page sent IH]; intros j; [done|].
  simpl. f_equal. apply IH.
Qed.

Lemma successes_loop_abort_trace (py_repr : value → string)
    (sent : list (list value)) (bad : list value) (flags : nat → bool) (j : nat) :
  successes (loop_abort_trace py_repr sent bad flags j) =
    flags <$> seq j (length sent).
Proof.
  revert j. induction sent as [|page sent IH]; intros j; [done|].
  simpl. f_equal. apply IH.
Qed.

Lemma last_loop_abort_trace (py_repr : value → string)
    (sent : list (list value)) (bad : list value) (flags : nat → bool) (j : nat) :
  last (loop_abort_trace py_repr sent bad flags j) = Some (CallNext (Some bad)).
Proof.
  revert j. induction sent as [|page sent IH]; intros j; [done|].
  simpl. by rewrite !last_cons, IH.
Qed.

(** X13.  When the pages of the library are [sent], which can be
    processed, then [bad], which cannot, then any others, the run ends
    with the exception of [process_batch] on [bad]: the pages of [sent]
    have been fetched and sent, [bad] has been fetched and none of its
    items sent, no later page is asked for and no total is printed. *)
Theorem malformed_page_stops_run (py_repr : value → string)
    (sent later : list (list value)) (bad first_page : list value)
    (rest : list (list value)) (flags : nat → bool) (fuel : nat) (e : exn) :
  (sent ++ bad :: later)%list = first_page :: rest →
  forallb is_page sent = true →
  process_batch py_repr bad = Raise e →
  (length sent ≤ fuel)%nat →
  ∃ tr,
    run py_repr first_page (finite_pages rest) flags fuel = Some (Raise e, tr) ∧
    fetched tr = (sent ++ [bad])%list ∧
    submitted tr = updates_of py_repr <$> sent ∧
    successes tr = flags <$> seq 0 (length sent) ∧
    reported_total tr = None.
Proof.
  intros Hall Hok He Hfuel. destruct sent as [|page sent].
  - simpl in Hall. injection Hall as <- <-.
    exists [CallItems "report" 50 bad]. split; [|done].
    unfold run, notebook, fetch_first, call_items, initial_batch, lift.
    unfold mbind, script_bind. simpl. by rewrite He.
  - simpl in Hall. injection Hall as <- <-.
    simpl in Hok. apply andb_true_iff in Hok as [Hp Hok].
    eexists. split.
    + unfold run, notebook.
      unfold mbind at 1. unfold script_bind at 1. unfold fetch_first, call_items.
      cbn -[initial_batch for_loop]. unfold start.
      rewrite (initial_batch_scripted py_repr _ _ _ 0 0 _ Hp).
      rewrite (for_loop_aborts py_repr page (finite_pages (sent ++ bad :: later))
                 flags sent bad e 0 1 _ _ fuel); [reflexivity| | |done|done|].
      * intros k Hk. unfold finite_pages.
        rewrite Nat.add_0_r. by apply lookup_app_l.
      * unfold finite_pages. rewrite Nat.add_0_r.
        by rewrite list_lookup_middle.
      * simpl in Hfuel. lia.
    + simpl. split; [|split; [|split]].
      * f_equal. apply fetched_loop_abort_trace.
      * f_equal. apply submitted_loop_abort_trace.
      * f_equal. apply successes_loop_abort_trace.
      * unfold reported_total. by rewrite !last_cons, last_loop_abort_trace.
Qed.

Lemma malformed_page_stops_run_witness :
  ∃ tr,
    run example_repr [example_item; empty_ids_item]
      (finite_pages [[example_item]; [empty_ids_item; VDict ∅; example_item];
                     [example_item]])
      (λ _, true) 2 = Some (Raise (KeyError "library"), tr) ∧
    fetched tr =
      ([[example_item; empty_ids_item]; [example_item]] ++
       [[empty_ids_item; VDict ∅; example_item]])%list ∧
    submitted tr =
      updates_of example_repr <$> [[example_item; empty_ids_item]; [example_item]] ∧
    successes tr = (λ _, true) <$> seq 0 2 ∧
    reported_total tr = None.
Proof.
  apply (malformed_page_stops_run example_repr
           [[example_item; empty_ids_item]; [example_item]]
           [[example_item]]
           [empty_ids_item; VDict ∅; example_item]
           [example_item; empty_ids_item]
           [[example_item]; [empty_ids_item; VDict ∅; example_item];
            [example_item]]
           (λ _, true) 2 (KeyError "library"));
    [reflexivity|reflexivity|reflexivity|simpl; lia].
Defined.

(** ** The client and its answers *)

(** X14.  The run depends on the client through its answers only: on any
    client, from any state, it returns, raises or runs out of steps as on
    the scripted client that gives the same first page, the same pages
    from the iterator and the same results of [update_items], and with the
    same trace. *)
Theorem any_client_runs_as_its_script (py_repr : value → string)
    (C : Collaborator) (c0 : conn C) (fuel : nat) :
  observed C (notebook py_repr C fuel (World C c0 [])) =
  run py_repr (first_answer C c0).1 (script_pages py_repr C c0)
    (script_flags py_repr C c0) fuel.
Proof. apply run_script_of. Qed.

Lemma loop_shape_ends (py_repr : value → string) (total total' : nat)
    (suffix : list event) :
  loop_shape py_repr total suffix (Ok total') →
  ∃ middle, suffix = (middle ++ [CallNext None])%list ∧
            forallb in_loop middle = true.
Proof.
  remember (Ok total') as r eqn:Hr.
  induction 1 as [total|total page e H|total page updates success tr r H Hs IH];
    [by exists []|discriminate|].
  destruct (IH Hr) as (middle & -> & Hm).
  exists (CallNext (Some page) :: CallUpdateItems updates success
            :: PrintBatch "PROCESSED NEXT BATCH" (length updates) success
            :: middle).
  split; [done|]. simpl. exact Hm.
Qed.

(** X15.  On any client, a run that ends normally lists the library once,
    at the start, and prints the total once, at the end, right after the
    one step of the iterator that found it exhausted; in between there is
    nothing but pages from the iterator, the calls that send them and the
    lines that report these calls. *)
Theorem normal_run_bookends (py_repr : value → string)
    (C : Collaborator) (c0 : conn C) (fuel total : nat) (tr : list event) :
  observed C (notebook py_repr C fuel (World C c0 [])) = Some (Ok total, tr) →
  ∃ first_page updates success middle,
    tr = (CallItems "report" 50 first_page
            :: CallUpdateItems updates success
            :: PrintBatch "PROCESSED INITIAL BATCH" (length updates) success
            :: middle
            ++ [CallNext None; PrintTotal "TOTAL ITEMS PROCESSED" total])%list ∧
    forallb in_loop middle = true.
Proof.
  intros H. apply (notebook_shape py_repr C c0 fuel) in H.
  inversion H as [| |page updates success suffix total' Hpb Hs]; subst.
  destruct (loop_shape_ends _ _ _ _ Hs) as (middle & -> & Hm).
  exists page, updates, success, middle. split; [|done].
  by rewrite <- app_assoc.
Qed.

Lemma normal_run_bookends_witness :
  ∃ first_page updates success middle,
    run_trace example_repr [example_item] [[]; [empty_ids_item]]
      (λ j, negb (Nat.eqb j 1)) =
      (CallItems "report" 50 first_page
         :: CallUpdateItems updates success
         :: PrintBatch "PROCESSED INITIAL BATCH" (length updates) success
         :: middle
         ++ [CallNext None; PrintTotal "TOTAL ITEMS PROCESSED" 2])%list ∧
    forallb in_loop middle = true.
Proof.
  apply (normal_run_bookends example_repr queue_client
           [[example_item]; []; [empty_ids_item]] 3 2).
  reflexivity.
Defined.
